(** * go-socks5: the SOCKS4/SOCKS5 request header codec (header.go)

    A shallow embedding of [Parse], [Header.Bytes], [AddrSpec.Address],
    [buildPort] and [breakPort], and the properties of the codec.

    Conventions.
    - A Go [byte]/[uint8] is a [Byte.byte]; [int(b)] is [Byte.to_N] seen in
      [Z], and the conversion [byte(x)] of an [int] keeps the low 8 bits.
    - A Go [int] is a [Z]; no operation of this file leaves the 64-bit range
      on the values the codec builds, so no wrap-around is written.
    - A Go [string] is a [String.string] (a sequence of 8-bit characters);
      [[]byte(s)] and [string(b)] are [list_byte_of_string] and
      [string_of_list_byte].
    - An [io.Reader] is the finite list of bytes it still has to deliver,
      followed by the end of the stream. *)

From Stdlib Require Import ZArith NArith List Bool Lia.
From Stdlib Require Import Strings.Byte Strings.Ascii Strings.String.
From Stdlib Require Import Numbers.DecimalString Numbers.HexadecimalString.
From Stdlib Require Import Numbers.DecimalN Numbers.DecimalZ Numbers.HexadecimalN.
Import ListNotations.

Local Open Scope Z_scope.
Local Open Scope string_scope.
Local Open Scope list_scope.

(* ------------------------------------------------------------------ *)
(** ** Bytes and integers *)

(** [int(b)] for a byte [b]. *)
Definition int (b : byte) : Z := Z.of_N (Byte.to_N b).

(** [byte(x)] for an int [x]: the low 8 bits. *)
Definition uint8 (x : Z) : byte :=
  match Byte.of_N (Z.to_N (x mod 256)) with
  | Some b => b
  | None => x00
  end.

(* ------------------------------------------------------------------ *)
(** ** Constants of header.go *)

Definition socks4Version : byte := x04.
Definition socks5Version : byte := x05.

Definition ConnectCommand : byte := x01.
Definition BindCommand : byte := x02.
Definition AssociateCommand : byte := x03.

Definition ipv4Address : byte := x01.
Definition fqdnAddress : byte := x03.
Definition ipv6Address : byte := x04.

Definition headVERLen : nat := 1.
Definition headCMDLen : nat := 1.
Definition headRSVLen : nat := 1.
Definition headATYPLen : nat := 1.
Definition headPORTLen : nat := 2.

(** [net.IPv4len] and [net.IPv6len]. *)
Definition IPv4len : nat := 4.
Definition IPv6len : nat := 16.

(* ------------------------------------------------------------------ *)
(** ** The data model *)

(** [net.IP] is a byte slice; [nil] and the empty slice are both [[]]. *)
Definition net_IP := list byte.

Record AddrSpec := mkAddrSpec {
  FQDN : string;
  IP : net_IP;
  Port : Z
}.

Record Header := mkHeader {
  Version : byte;
  Command : byte;
  Reserved : byte;
  Address : AddrSpec;
  addrType : byte
}.

(** The zero values Go gives to [hd] on entry of [Parse]. *)
Definition zeroAddrSpec : AddrSpec := mkAddrSpec "" [] 0.
Definition zeroHeader : Header :=
  mkHeader x00 x00 x00 zeroAddrSpec x00.

(** Field assignments [hd.F = v]. *)
Definition set_Version (v : byte) (h : Header) : Header :=
  mkHeader v (Command h) (Reserved h) (Address h) (addrType h).
Definition set_Command (v : byte) (h : Header) : Header :=
  mkHeader (Version h) v (Reserved h) (Address h) (addrType h).
Definition set_Reserved (v : byte) (h : Header) : Header :=
  mkHeader (Version h) (Command h) v (Address h) (addrType h).
Definition set_addrType (v : byte) (h : Header) : Header :=
  mkHeader (Version h) (Command h) (Reserved h) (Address h) v.
Definition set_FQDN (v : string) (h : Header) : Header :=
  mkHeader (Version h) (Command h) (Reserved h)
    (mkAddrSpec v (IP (Address h)) (Port (Address h))) (addrType h).
Definition set_IP (v : net_IP) (h : Header) : Header :=
  mkHeader (Version h) (Command h) (Reserved h)
    (mkAddrSpec (FQDN (Address h)) v (Port (Address h))) (addrType h).
Definition set_Port (v : Z) (h : Header) : Header :=
  mkHeader (Version h) (Command h) (Reserved h)
    (mkAddrSpec (FQDN (Address h)) (IP (Address h)) v) (addrType h).

(* ------------------------------------------------------------------ *)
(** ** Ports *)

(** [func buildPort(hi, lo byte) int { return (int(hi) << 8) | int(lo) }] *)
Definition buildPort (hi lo : byte) : Z :=
  Z.lor (Z.shiftl (int hi) 8) (int lo).

(** [func breakPort(port int) (hi, lo byte) { return byte(port >> 8), byte(port) }] *)
Definition breakPort (port : Z) : byte * byte :=
  (uint8 (Z.shiftr port 8), uint8 port).

(* ------------------------------------------------------------------ *)
(** ** Errors *)

(** What [io.ReadFull] reports on a stream that ends: [io.EOF] when no byte
    was read, [io.ErrUnexpectedEOF] when some but not all were. *)
Inductive ioError := EOF | ErrUnexpectedEOF.

(** The [%v] rendering of these two errors. *)
Definition ioError_Error (e : ioError) : string :=
  match e with
  | EOF => "EOF"
  | ErrUnexpectedEOF => "unexpected EOF"
  end.

(** The error values [Parse] returns: an error built by [fmt.Errorf]
    without a [%w] verb carries its text and nothing else; a package-level
    error variable is returned as it is, and is the same value at each
    return. *)
Inductive error :=
| Errorf (msg : string)
| errorVar (name : string).

(** Modelled from the spec: the declaration of the error variable
    [unrecognizedAddrType], which [Parse] returns for an address type it
    does not know, is outside header.go; the spec names this failure
    UnsupportedAddressType, a kind of its own. *)
Definition unrecognizedAddrType : error := errorVar "unrecognizedAddrType".

(** The [%d] rendering of a byte. *)
Definition fmt_d (b : byte) : string :=
  DecimalString.NilZero.string_of_uint (N.to_uint (Byte.to_N b)).

(* ------------------------------------------------------------------ *)
(** ** Readers *)

Definition Reader := list byte.

(** The first [n] bytes of a stream and what follows them, when it has
    that many. *)
Fixpoint take (n : nat) (r : Reader) : option (list byte * Reader) :=
  match n with
  | O => Some ([], r)
  | S n' =>
      match r with
      | [] => None
      | b :: r' =>
          match take n' r' with
          | Some (bs, rest) => Some (b :: bs, rest)
          | None => None
          end
      end
  end.

(** [io.ReadFull(r, buf)] with [len(buf) = n]: the [n] bytes, or the error
    of a stream that ended; a short read has consumed what there was. *)
Definition ReadFull (r : Reader) (n : nat) : (ioError + list byte) * Reader :=
  match take n r with
  | Some (buf, rest) => (inr buf, rest)
  | None =>
      match r with
      | [] => (inl EOF, [])
      | _ :: _ => (inl ErrUnexpectedEOF, [])
      end
  end.

(** Indexing [s[i]] and slicing [s[:n]], [s[n:]] of a buffer. *)
Definition idx (s : list byte) (i : nat) : byte := nth i s x00.

(* ------------------------------------------------------------------ *)
(** ** Parse *)

(** The result of [Parse]: the header [hd] as it stands on return, the
    error, and the reader after the reads. *)
Definition ParseResult : Type := Header * option error * Reader.

(** The SOCKS4 branch: port and IPv4 address. *)
Definition parseSocks4 (hd : Header) (r : Reader) : ParseResult :=
  match ReadFull r (headPORTLen + IPv4len) with
  | (inl err, r) =>
      (hd, Some (Errorf ("failed to get socks4 header port and ip, " ++ ioError_Error err)), r)
  | (inr tmp, r) =>
      let hd := set_Port (buildPort (idx tmp 0) (idx tmp 1)) hd in
      let hd := set_IP (skipn 2 tmp) hd in
      (hd, None, r)
  end.

(** The SOCKS5 branch: reserved byte, address type, then the address. *)
Definition parseSocks5 (hd : Header) (r : Reader) : ParseResult :=
  match ReadFull r (headRSVLen + headATYPLen) with
  | (inl err, r) =>
      (hd, Some (Errorf ("failed to get header RSV and address type, " ++ ioError_Error err)), r)
  | (inr tmp, r) =>
      let hd := set_Reserved (idx tmp 0) hd in
      let hd := set_addrType (idx tmp 1) hd in
      if Byte.eqb (addrType hd) fqdnAddress then
        match ReadFull r 1 with
        | (inl err, r) => (hd, Some (Errorf ("failed to get header, " ++ ioError_Error err)), r)
        | (inr tmp, r) =>
            let addrLen := Z.to_nat (int (idx tmp 0)) in
            match ReadFull r (addrLen + 2) with
            | (inl err, r) => (hd, Some (Errorf ("failed to get header, " ++ ioError_Error err)), r)
            | (inr addr, r) =>
                let hd := set_FQDN (string_of_list_byte (firstn addrLen addr)) hd in
                let hd := set_Port (buildPort (idx addr addrLen) (idx addr (addrLen + 1))) hd in
                (hd, None, r)
            end
        end
      else if Byte.eqb (addrType hd) ipv4Address then
        match ReadFull r (IPv4len + 2) with
        | (inl err, r) => (hd, Some (Errorf ("failed to get header, " ++ ioError_Error err)), r)
        | (inr addr, r) =>
            let hd := set_IP (firstn IPv4len addr) hd in
            let hd := set_Port (buildPort (idx addr IPv4len) (idx addr (IPv4len + 1))) hd in
            (hd, None, r)
        end
      else if Byte.eqb (addrType hd) ipv6Address then
        match ReadFull r (IPv6len + 2) with
        | (inl err, r) => (hd, Some (Errorf ("failed to get header, " ++ ioError_Error err)), r)
        | (inr addr, r) =>
            let hd := set_IP (firstn IPv6len addr) hd in
            let hd := set_Port (buildPort (idx addr IPv6len) (idx addr (IPv6len + 1))) hd in
            (hd, None, r)
        end
      else (hd, Some unrecognizedAddrType, r)
  end.

(** [func Parse(r io.Reader) (hd Header, err error)] *)
Definition Parse (r : Reader) : ParseResult :=
  let hd := zeroHeader in
  match ReadFull r (headVERLen + headCMDLen) with
  | (inl err, r) =>
      (hd, Some (Errorf ("failed to get header version and command, " ++ ioError_Error err)), r)
  | (inr tmp, r) =>
      let hd := set_Version (idx tmp 0) hd in
      let hd := set_Command (idx tmp 1) hd in
      if negb (Byte.eqb (Version hd) socks5Version) && negb (Byte.eqb (Version hd) socks4Version) then
        (hd, Some (Errorf ("unrecognized SOCKS version[" ++ fmt_d (Version hd) ++ "]")), r)
      else if negb (Byte.eqb (Command hd) ConnectCommand)
              && negb (Byte.eqb (Command hd) BindCommand)
              && negb (Byte.eqb (Command hd) AssociateCommand) then
        (hd, Some (Errorf ("unrecognized command[" ++ fmt_d (Command hd) ++ "]")), r)
      else if Byte.eqb (Version hd) socks4Version && Byte.eqb (Command hd) AssociateCommand then
        (hd, Some (Errorf "wrong version for command"), r)
      else if Byte.eqb (Version hd) socks4Version then parseSocks4 hd r
      else if Byte.eqb (Version hd) socks5Version then parseSocks5 hd r
      else (hd, None, r)
  end.

(* ------------------------------------------------------------------ *)
(** ** net.IP conversions used by Bytes *)

Definition v4InV6Prefix : list byte :=
  [x00; x00; x00; x00; x00; x00; x00; x00; x00; x00; xff; xff].

Definition isZeros (p : list byte) : bool :=
  forallb (fun b => Byte.eqb b x00) p.

(** [ip.To4()]: the 4-byte form of an IPv4 address, [nil] otherwise. *)
Definition To4 (ip : net_IP) : net_IP :=
  if Nat.eqb (List.length ip) IPv4len then ip
  else if Nat.eqb (List.length ip) IPv6len
          && isZeros (firstn 10 ip)
          && Byte.eqb (idx ip 10) xff
          && Byte.eqb (idx ip 11) xff
       then firstn 4 (skipn 12 ip)
  else [].

(** [ip.To16()]: the 16-byte form of an address, [nil] otherwise. *)
Definition To16 (ip : net_IP) : net_IP :=
  if Nat.eqb (List.length ip) IPv4len then v4InV6Prefix ++ ip
  else if Nat.eqb (List.length ip) IPv6len then ip
  else [].

(* ------------------------------------------------------------------ *)
(** ** Bytes *)

(** [func (h Header) Bytes() (b []byte)] *)
Definition Bytes (h : Header) : list byte :=
  let b := [] in
  let b := b ++ [Version h] in
  let b := b ++ [Command h] in
  let '(hiPort, loPort) := breakPort (Port (Address h)) in
  if Byte.eqb (Version h) socks4Version then
    let b := b ++ [hiPort; loPort] in
    let b := b ++ IP (Address h) in
    b
  else if Byte.eqb (Version h) socks5Version then
    let b := b ++ [Reserved h] in
    let b := b ++ [addrType h] in
    let b :=
      if Byte.eqb (addrType h) fqdnAddress then
        let b := b ++ [uint8 (Z.of_nat (String.length (FQDN (Address h))))] in
        b ++ list_byte_of_string (FQDN (Address h))
      else if Byte.eqb (addrType h) ipv4Address then
        b ++ To4 (IP (Address h))
      else if Byte.eqb (addrType h) ipv6Address then
        b ++ To16 (IP (Address h))
      else b in
    b ++ [hiPort; loPort]
  else b.

(* ------------------------------------------------------------------ *)
(** ** Address *)

(** [strconv.Itoa]. *)
Definition Itoa (i : Z) : string := DecimalString.NilZero.string_of_int (Z.to_int i).

(** Whether a string has the character [c]. *)
Fixpoint hasChar (c : ascii) (s : string) : bool :=
  match s with
  | EmptyString => false
  | String a s' => Ascii.eqb a c || hasChar c s'
  end.

(** [net.JoinHostPort]: a host with a colon is put in brackets. *)
Definition JoinHostPort (host port : string) : string :=
  if hasChar ":"%char host then "[" ++ host ++ "]:" ++ port
  else host ++ ":" ++ port.

(** Lower-case hexadecimal, no leading zeros. *)
Definition hex (n : N) : string :=
  HexadecimalString.NilZero.string_of_uint (N.to_hex_uint n).

(** Two hexadecimal digits of a byte. *)
Definition hex2 (b : byte) : string :=
  hex (Byte.to_N b / 16) ++ hex (Byte.to_N b mod 16).

Definition hexString (p : list byte) : string :=
  String.concat "" (map hex2 p).

(** The eight 16-bit groups of a 16-byte address. *)
Fixpoint groups (p : list byte) : list N :=
  match p with
  | a :: b :: p' => (Byte.to_N a * 256 + Byte.to_N b)%N :: groups p'
  | _ => []
  end.

(** Number of zero groups at the head of a list of groups. *)
Fixpoint zeroRun (gs : list N) : nat :=
  match gs with
  | 0%N :: gs' => S (zeroRun gs')
  | _ => 0%nat
  end.

(** The first longest run of at least two zero groups, as (start, end),
    searching from group [i]; [best] is the run found so far. *)
Fixpoint longestZeroRun (gs : list N) (i : nat) (best : option (nat * nat))
  : option (nat * nat) :=
  match gs with
  | [] => best
  | _ :: gs' =>
      let l := zeroRun gs in
      let cur := match best with Some (s, e) => (e - s)%nat | None => 0%nat end in
      let best := if Nat.leb 2 l && Nat.ltb cur l then Some (i, (i + l)%nat) else best in
      longestZeroRun gs' (S i) best
  end.

(** The text of an IPv6 address: groups in hexadecimal separated by colons,
    the first longest run of zero groups written [::]. *)
Definition string6 (p : list byte) : string :=
  let gs := groups p in
  match longestZeroRun gs 0 None with
  | Some (s, e) =>
      String.concat ":" (map hex (firstn s gs)) ++ "::" ++
      String.concat ":" (map hex (skipn e gs))
  | None => String.concat ":" (map hex gs)
  end.

(** The dotted-decimal text of a 4-byte address. *)
Definition string4 (p : list byte) : string :=
  String.concat "." (map fmt_d p).

(** [net.IP.String]. *)
Definition IP_String (ip : net_IP) : string :=
  if Nat.eqb (List.length ip) 0 then "<nil>"
  else if negb (Nat.eqb (List.length ip) IPv4len) && negb (Nat.eqb (List.length ip) IPv6len)
  then "?" ++ hexString ip
  else if Nat.eqb (List.length (To4 ip)) IPv4len then string4 (To4 ip)
  else string6 ip.

(** [func (a AddrSpec) Address() string] *)
Definition AddrSpec_Address (a : AddrSpec) : string :=
  if negb (Nat.eqb 0 (List.length (IP a))) then
    JoinHostPort (IP_String (IP a)) (Itoa (Port a))
  else
    JoinHostPort (FQDN a) (Itoa (Port a)).

(* ------------------------------------------------------------------ *)
(** ** Vocabulary of the properties *)

(** The header after the first read. *)
Definition hdVerCmd (v c : byte) : Header :=
  set_Command c (set_Version v zeroHeader).

(** The header after the reserved and address-type bytes. *)
Definition hdSocks5 (c rsv t : byte) : Header :=
  set_addrType t (set_Reserved rsv (hdVerCmd socks5Version c)).

(** The command bytes [Parse] accepts. *)
Definition supportedCommand (c : byte) : Prop :=
  c = ConnectCommand \/ c = BindCommand \/ c = AssociateCommand.

(** The two port bytes [Bytes] emits. *)
Definition hiPort (h : Header) : byte := fst (breakPort (Port (Address h))).
Definition loPort (h : Header) : byte := snd (breakPort (Port (Address h))).

(** The 16-byte form of an IPv4 address: [v4InV6Prefix] and its 4 bytes. *)
Definition v4Mapped (ip : net_IP) : Prop :=
  exists a b c d, ip = v4InV6Prefix ++ [a; b; c; d].

(** The error of a short read: the text [failed to get <what>, <io error>]. *)
Definition shortRead (e : error) : Prop :=
  exists what io, e = Errorf ("failed to get " ++ what ++ ", " ++ ioError_Error io).

(** The errors of the checks on the bytes read. *)
Definition contentError (e : error) : Prop :=
  (exists v, e = Errorf ("unrecognized SOCKS version[" ++ fmt_d v ++ "]"))
  \/ (exists c, e = Errorf ("unrecognized command[" ++ fmt_d c ++ "]"))
  \/ e = Errorf "wrong version for command"
  \/ e = unrecognizedAddrType.

(** A result either is a short read that emptied the stream, or does not
    change when more bytes follow the stream. *)
Definition extends (more : Reader) (res res' : ParseResult) : Prop :=
  (exists h e, res = (h, Some e, []) /\ shortRead e)
  \/ (exists h x rest, res = (h, x, rest) /\ res' = (h, x, rest ++ more)).

(* ------------------------------------------------------------------ *)
(** ** String *)

(** [func (a *AddrSpec) String() string], on the address the receiver
    points to.  [%s] renders the string [a.FQDN] as it is and the [net.IP]
    through its [String] method; [%d] renders the int [a.Port] in decimal. *)
Definition AddrSpec_String (a : AddrSpec) : string :=
  if negb (String.eqb (FQDN a) "") then
    FQDN a ++ " (" ++ IP_String (IP a) ++ "):" ++ Itoa (Port a)
  else
    IP_String (IP a) ++ ":" ++ Itoa (Port a).

(* ------------------------------------------------------------------ *)
(** ** The headers of the wire format *)

Definition portInRange (p : Z) : bool := (0 <=? p)%Z && (p <=? 65535)%Z.

(** The headers that [Parse] can return without error: a SOCKS4 connect or
    bind with a 4-byte IP and nothing else set, or a SOCKS5 request whose
    address type agrees with what the address holds (a domain of at most 255
    bytes and no IP, or an IP of 4 or of 16 bytes and no domain). *)
Definition wellFormed (h : Header) : bool :=
  let a := Address h in
  if Byte.eqb (Version h) socks4Version then
    (Byte.eqb (Command h) ConnectCommand || Byte.eqb (Command h) BindCommand)
    && Byte.eqb (Reserved h) x00 && Byte.eqb (addrType h) x00
    && String.eqb (FQDN a) "" && Nat.eqb (List.length (IP a)) IPv4len
    && portInRange (Port a)
  else if Byte.eqb (Version h) socks5Version then
    (Byte.eqb (Command h) ConnectCommand || Byte.eqb (Command h) BindCommand
     || Byte.eqb (Command h) AssociateCommand)
    && portInRange (Port a)
    && (if Byte.eqb (addrType h) fqdnAddress then
          Nat.leb (String.length (FQDN a)) 255 && Nat.eqb (List.length (IP a)) 0
        else if Byte.eqb (addrType h) ipv4Address then
          String.eqb (FQDN a) "" && Nat.eqb (List.length (IP a)) IPv4len
        else if Byte.eqb (addrType h) ipv6Address then
          String.eqb (FQDN a) "" && Nat.eqb (List.length (IP a)) IPv6len
        else false)
  else false.

(** The number of bytes of the wire form of a well-formed header. *)
Definition wireLength (h : Header) : nat :=
  if Byte.eqb (Version h) socks4Version then 8
  else if Byte.eqb (addrType h) fqdnAddress then 7 + String.length (FQDN (Address h))
  else if Byte.eqb (addrType h) ipv4Address then 10
  else 22.

(* ------------------------------------------------------------------ *)
(** ** Tactics *)

(** Reading the fields of a header built by assignments. *)
Ltac fields :=
  cbn [Version Command Reserved Address addrType FQDN IP Port
       set_Version set_Command set_Reserved set_addrType set_FQDN set_IP
       set_Port hdVerCmd hdSocks5 zeroHeader zeroAddrSpec].

Ltac short_read what :=
  left; do 2 eexists; split; [reflexivity | exists what; eexists; reflexivity].

Ltac same_result := right; do 3 eexists; split; reflexivity.

(* ------------------------------------------------------------------ *)
(** * Properties *)

(** ** Worked examples *)

Example Parse_ipv4_example :
  Parse [x05; x01; x00; x01; x7f; x00; x00; x01; x1f; x90]
  = (mkHeader x05 x01 x00 (mkAddrSpec "" [x7f; x00; x00; x01] 8080) x01,
     None, []).
Proof. reflexivity. Qed.

Example Bytes_ipv4_example :
  Bytes (mkHeader x05 x01 x00 (mkAddrSpec "" [x7f; x00; x00; x01] 8080) x01)
  = [x05; x01; x00; x01; x7f; x00; x00; x01; x1f; x90].
Proof. reflexivity. Qed.

Example Address_ipv4_example :
  AddrSpec_Address (mkAddrSpec "" [x7f; x00; x00; x01] 8080) = "127.0.0.1:8080".
Proof. reflexivity. Qed.

Example Address_ipv6_example :
  AddrSpec_Address (mkAddrSpec "" [x20; x01; x0d; xb8; x00; x00; x00; x00;
                           x00; x00; x00; x00; x00; x00; x00; x01] 443)
  = "[2001:db8::1]:443".
Proof. reflexivity. Qed.

Example Address_loopback6_example :
  AddrSpec_Address (mkAddrSpec "" [x00; x00; x00; x00; x00; x00; x00; x00;
                           x00; x00; x00; x00; x00; x00; x00; x01] 80)
  = "[::1]:80".
Proof. reflexivity. Qed.

Example Address_mapped_example :
  AddrSpec_Address (mkAddrSpec "ignored" [x00; x00; x00; x00; x00; x00; x00; x00;
                           x00; x00; xff; xff; x0a; x00; x00; x01] 80)
  = "10.0.0.1:80".
Proof. reflexivity. Qed.

Example Address_fqdn_example :
  AddrSpec_Address (mkAddrSpec "example.com" [] 80) = "example.com:80".
Proof. reflexivity. Qed.

(** ** Bytes as numbers *)

Lemma int_range (b : byte) : 0 <= int b <= 255.
Proof.
  unfold int. pose proof (Byte.to_N_bounded b). lia.
Qed.

Lemma uint8_int (b : byte) : uint8 (int b) = b.
Proof.
  unfold uint8. pose proof (int_range b) as Hb.
  rewrite Z.mod_small by lia.
  unfold int. rewrite N2Z.id, Byte.of_to_N. reflexivity.
Qed.

Lemma int_uint8 (x : Z) : int (uint8 x) = x mod 256.
Proof.
  unfold uint8, int.
  pose proof (Z.mod_pos_bound x 256 ltac:(lia)) as Hm.
  destruct (Byte.of_N (Z.to_N (x mod 256))) as [b|] eqn:E.
  - apply Byte.to_of_N in E. rewrite E. lia.
  - apply Byte.of_N_None_iff in E. lia.
Qed.

Lemma int_inj (a b : byte) : int a = int b -> a = b.
Proof.
  intros H. rewrite <- (uint8_int a), <- (uint8_int b), H. reflexivity.
Qed.

Lemma uint8_mod (x : Z) : uint8 (x mod 256) = uint8 x.
Proof.
  unfold uint8. rewrite Z.mod_mod by lia. reflexivity.
Qed.

(** ** Ports *)

Lemma land_shifted_low (x y : Z) :
  0 <= y < 256 -> Z.land (x * 2 ^ 8) y = 0.
Proof.
  intros Hy. apply Z.bits_inj'. intros n Hn.
  rewrite Z.land_spec, Z.bits_0.
  destruct (Z.ltb_spec n 8) as [Hlt|Hge].
  - rewrite Z.mul_pow2_bits_low by lia. reflexivity.
  - replace y with (y mod 2 ^ 8) by (apply Z.mod_small; lia).
    rewrite Z.mod_pow2_bits_high by lia. apply andb_false_r.
Qed.

Lemma buildPort_value (hi lo : byte) : buildPort hi lo = int hi * 256 + int lo.
Proof.
  unfold buildPort. pose proof (int_range lo) as Hlo.
  rewrite Z.shiftl_mul_pow2 by lia.
  rewrite <- Z.add_lor_land, land_shifted_low by lia.
  change (2 ^ 8) with 256. lia.
Qed.

Lemma buildPort_range (hi lo : byte) : 0 <= buildPort hi lo <= 65535.
Proof.
  rewrite buildPort_value.
  pose proof (int_range hi). pose proof (int_range lo). lia.
Qed.

Lemma breakPort_buildPort (hi lo : byte) : breakPort (buildPort hi lo) = (hi, lo).
Proof.
  unfold breakPort. rewrite buildPort_value.
  pose proof (int_range hi) as Hhi. pose proof (int_range lo) as Hlo.
  rewrite Z.shiftr_div_pow2 by lia. change (2 ^ 8) with 256.
  rewrite Z.div_add_l, Z.div_small, Z.add_0_r, uint8_int by lia.
  rewrite <- uint8_mod, Z.add_comm, Z.mod_add, Z.mod_small, uint8_int by lia.
  reflexivity.
Qed.

(** C6. The decoder rebuilds a port from its two bytes as the big-endian
    unsigned 16-bit number [hi * 256 + lo], between 0 and 65535; the encoder
    emits [hi = byte(port >> 8)] and [lo = port & 0xFF], which for a port of
    16 bits are [port >> 8] and [port & 0xFF] themselves, and it gives back
    the bytes the decoder read.  Port 0 goes through the bytes (0x00, 0x00)
    and port 65535 through (0xFF, 0xFF), in both directions. *)
Theorem port_big_endian_roundtrip :
  (forall hi lo : byte,
      buildPort hi lo = Z.lor (Z.shiftl (int hi) 8) (int lo)
      /\ buildPort hi lo = int hi * 256 + int lo
      /\ 0 <= buildPort hi lo <= 65535
      /\ breakPort (buildPort hi lo) = (hi, lo))
  /\ (forall port : Z,
      int (fst (breakPort port)) = Z.land (Z.shiftr port 8) 255
      /\ int (snd (breakPort port)) = Z.land port 255)
  /\ (forall port : Z, 0 <= port <= 65535 ->
      int (fst (breakPort port)) = Z.shiftr port 8
      /\ buildPort (fst (breakPort port)) (snd (breakPort port)) = port)
  /\ buildPort x00 x00 = 0 /\ breakPort 0 = (x00, x00)
  /\ buildPort xff xff = 65535 /\ breakPort 65535 = (xff, xff).
Proof.
  assert (Hland : forall x, Z.land x 255 = x mod 256).
  { intros x. change 255 with (Z.ones 8). rewrite Z.land_ones by lia. reflexivity. }
  split; [|split; [|split]].
  - intros hi lo. split; [reflexivity|].
    split; [apply buildPort_value|].
    split; [apply buildPort_range | apply breakPort_buildPort].
  - intros port. unfold breakPort; simpl fst; simpl snd.
    rewrite !int_uint8, !Hland. split; reflexivity.
  - intros port Hport.
    assert (Hhi : int (fst (breakPort port)) = Z.shiftr port 8).
    { unfold breakPort; simpl fst. rewrite int_uint8.
      rewrite Z.shiftr_div_pow2 by lia. change (2 ^ 8) with 256.
      apply Z.mod_small. split.
      - apply Z.div_pos; lia.
      - apply Z.div_lt_upper_bound; lia. }
    split; [exact Hhi|].
    rewrite buildPort_value, Hhi.
    unfold breakPort; simpl snd. rewrite int_uint8.
    rewrite Z.shiftr_div_pow2 by lia. change (2 ^ 8) with 256.
    pose proof (Z.div_mod port 256 ltac:(lia)). lia.
  - repeat split; reflexivity.
Qed.

Lemma port_big_endian_roundtrip_witness :
  0 <= 8080 <= 65535
  /\ int (fst (breakPort 8080)) = Z.shiftr 8080 8
  /\ buildPort (fst (breakPort 8080)) (snd (breakPort 8080)) = 8080.
Proof.
  split; [lia|].
  exact (proj1 (proj2 (proj2 port_big_endian_roundtrip)) 8080 ltac:(lia)).
Defined.

(** ** Readers *)

Lemma take_Some (n : nat) (r : Reader) (buf rest : list byte) :
  take n r = Some (buf, rest) -> r = buf ++ rest /\ List.length buf = n.
Proof.
  revert r buf rest. induction n as [|n IH]; intros r buf rest H; simpl in H.
  - inversion H; subst. split; reflexivity.
  - destruct r as [|b r']; [discriminate|].
    destruct (take n r') as [[bs rs]|] eqn:E; [|discriminate].
    inversion H; subst. destruct (IH _ _ _ E) as [-> <-].
    split; reflexivity.
Qed.

Lemma take_app (buf rest : list byte) :
  take (List.length buf) (buf ++ rest) = Some (buf, rest).
Proof.
  induction buf as [|b buf IH]; simpl; [reflexivity|].
  rewrite IH. reflexivity.
Qed.

Lemma take_None (n : nat) (r : Reader) :
  take n r = None <-> (List.length r < n)%nat.
Proof.
  revert r. induction n as [|n IH]; intros r; simpl.
  - split; [discriminate|lia].
  - destruct r as [|b r']; simpl; [split; [lia|reflexivity]|].
    specialize (IH r'). destruct (take n r') as [[bs rs]|].
    + split; [discriminate|]. intros H.
      assert (Hn : (List.length r' < n)%nat) by lia.
      apply IH in Hn. discriminate.
    + split; [|reflexivity]. intros _.
      assert (Hn : (List.length r' < n)%nat) by (apply IH; reflexivity). lia.
Qed.

(** A read of [n] bytes succeeds exactly on a stream that has them, takes
    them from its head and leaves the rest. *)
Lemma ReadFull_ok (r : Reader) (n : nat) (buf : list byte) (r' : Reader) :
  ReadFull r n = (inr buf, r') <-> r = buf ++ r' /\ List.length buf = n.
Proof.
  unfold ReadFull. split.
  - destruct (take n r) as [[bs rs]|] eqn:E.
    + intros H; inversion H; subst. apply take_Some; assumption.
    + destruct r; discriminate.
  - intros [-> <-]. rewrite take_app. reflexivity.
Qed.

(** A read fails exactly on a stream that ends too early: with [io.EOF] on
    an empty stream, [io.ErrUnexpectedEOF] otherwise; nothing is left. *)
Lemma ReadFull_short (r : Reader) (n : nat) (e : ioError) (r' : Reader) :
  ReadFull r n = (inl e, r') <->
  (List.length r < n)%nat /\ r' = [] /\ e = match r with [] => EOF | _ => ErrUnexpectedEOF end.
Proof.
  unfold ReadFull. split.
  - destruct (take n r) as [[bs rs]|] eqn:E; [discriminate|].
    apply take_None in E.
    destruct r; intros H; inversion H; subst; repeat split; assumption.
  - intros (Hlen & -> & ->). apply take_None in Hlen. rewrite Hlen.
    destruct r; reflexivity.
Qed.

Lemma ReadFull_app (buf rest : list byte) :
  ReadFull (buf ++ rest) (List.length buf) = (inr buf, rest).
Proof.
  apply ReadFull_ok. split; reflexivity.
Qed.

(** ** Byte comparisons *)

Lemma byte_eqb_eq (a b : byte) : Byte.eqb a b = true <-> a = b.
Proof.
  split; [apply Byte.byte_dec_bl | apply Byte.byte_dec_lb].
Qed.

Lemma byte_eqb_neq (a b : byte) : Byte.eqb a b = false <-> a <> b.
Proof.
  split; [apply Byte.eqb_false|].
  intros H. destruct (Byte.eqb a b) eqn:E; [|reflexivity].
  apply byte_eqb_eq in E. contradiction.
Qed.

Lemma byte_eqb_refl (a : byte) : Byte.eqb a a = true.
Proof. apply byte_eqb_eq. reflexivity. Qed.

(** ** The first step of Parse: version and command *)

(** [Parse] on a stream of at least two bytes, after the first read. *)
Lemma Parse_two (v c : byte) (r : Reader) :
  Parse (v :: c :: r) =
    if negb (Byte.eqb v socks5Version) && negb (Byte.eqb v socks4Version) then
      (hdVerCmd v c, Some (Errorf ("unrecognized SOCKS version[" ++ fmt_d v ++ "]")), r)
    else if negb (Byte.eqb c ConnectCommand) && negb (Byte.eqb c BindCommand)
            && negb (Byte.eqb c AssociateCommand) then
      (hdVerCmd v c, Some (Errorf ("unrecognized command[" ++ fmt_d c ++ "]")), r)
    else if Byte.eqb v socks4Version && Byte.eqb c AssociateCommand then
      (hdVerCmd v c, Some (Errorf "wrong version for command"), r)
    else if Byte.eqb v socks4Version then parseSocks4 (hdVerCmd v c) r
    else if Byte.eqb v socks5Version then parseSocks5 (hdVerCmd v c) r
    else (hdVerCmd v c, None, r).
Proof. reflexivity. Qed.

Lemma supportedCommand_check (c : byte) :
  supportedCommand c ->
  negb (Byte.eqb c ConnectCommand) && negb (Byte.eqb c BindCommand)
    && negb (Byte.eqb c AssociateCommand) = false.
Proof.
  intros [-> | [-> | ->]]; reflexivity.
Qed.

Lemma unsupportedCommand_check (c : byte) :
  ~ supportedCommand c ->
  negb (Byte.eqb c ConnectCommand) && negb (Byte.eqb c BindCommand)
    && negb (Byte.eqb c AssociateCommand) = true.
Proof.
  unfold supportedCommand. intros H.
  destruct (Byte.eqb c ConnectCommand) eqn:E1;
    [apply byte_eqb_eq in E1; tauto|].
  destruct (Byte.eqb c BindCommand) eqn:E2;
    [apply byte_eqb_eq in E2; tauto|].
  destruct (Byte.eqb c AssociateCommand) eqn:E3;
    [apply byte_eqb_eq in E3; tauto|].
  reflexivity.
Qed.

(** A version-5 stream with a supported command goes on to the SOCKS5
    address fields. *)
Lemma Parse_socks5 (c : byte) (r : Reader) :
  supportedCommand c ->
  Parse (socks5Version :: c :: r) = parseSocks5 (hdVerCmd socks5Version c) r.
Proof.
  intros Hc. rewrite Parse_two, (supportedCommand_check c Hc). reflexivity.
Qed.

(** C3. On a stream of at least two bytes [v], [c], Parse fails with its
    unsupported-version error when [v] is neither 4 nor 5; otherwise with its
    unsupported-command error when [c] is not 1, 2 or 3; otherwise with its
    wrong-version-for-command error when [v] is 4 and [c] is 3; otherwise it
    goes on to read the address fields of its version.  Each of the three
    errors leaves the reader just after the two bytes.  In particular a
    stream beginning with 0x06 fails with the unsupported-version error and
    one beginning with 0x04, 0x03 with the wrong-version-for-command
    error. *)
Theorem Parse_version_command_checks (v c : byte) (r : Reader) :
  (v <> socks4Version -> v <> socks5Version ->
     Parse (v :: c :: r) =
       (hdVerCmd v c, Some (Errorf ("unrecognized SOCKS version[" ++ fmt_d v ++ "]")), r))
  /\ (v = socks4Version \/ v = socks5Version -> ~ supportedCommand c ->
     Parse (v :: c :: r) =
       (hdVerCmd v c, Some (Errorf ("unrecognized command[" ++ fmt_d c ++ "]")), r))
  /\ (v = socks4Version -> c = AssociateCommand ->
     Parse (v :: c :: r) =
       (hdVerCmd v c, Some (Errorf "wrong version for command"), r))
  /\ (v = socks4Version -> c = ConnectCommand \/ c = BindCommand ->
     Parse (v :: c :: r) = parseSocks4 (hdVerCmd v c) r)
  /\ (v = socks5Version -> supportedCommand c ->
     Parse (v :: c :: r) = parseSocks5 (hdVerCmd v c) r)
  /\ Parse (x06 :: c :: r) =
       (hdVerCmd x06 c, Some (Errorf "unrecognized SOCKS version[6]"), r)
  /\ Parse (x04 :: x03 :: r) =
       (hdVerCmd x04 x03, Some (Errorf "wrong version for command"), r).
Proof.
  repeat split.
  - intros H4 H5. rewrite Parse_two.
    apply byte_eqb_neq in H4, H5. rewrite H4, H5. reflexivity.
  - intros Hv Hc. rewrite Parse_two, (unsupportedCommand_check c Hc).
    destruct Hv as [-> | ->]; reflexivity.
  - intros -> ->. reflexivity.
  - intros -> [-> | ->]; reflexivity.
  - intros -> Hc. apply Parse_socks5; assumption.
Qed.

Lemma Parse_version_command_checks_witness :
  Parse [x07; x01; x00] =
    (hdVerCmd x07 x01, Some (Errorf "unrecognized SOCKS version[7]"), [x00])
  /\ Parse [x05; x09; x00] =
    (hdVerCmd x05 x09, Some (Errorf "unrecognized command[9]"), [x00])
  /\ Parse [x04; x03; x00] =
    (hdVerCmd x04 x03, Some (Errorf "wrong version for command"), [x00])
  /\ Parse [x04; x01; x00] = parseSocks4 (hdVerCmd x04 x01) [x00]
  /\ Parse [x05; x03; x00] = parseSocks5 (hdVerCmd x05 x03) [x00].
Proof.
  split; [|split; [|split; [|split]]].
  - apply (Parse_version_command_checks x07 x01 [x00]); discriminate.
  - apply (Parse_version_command_checks x05 x09 [x00]).
    + right; reflexivity.
    + intros [H | [H | H]]; discriminate H.
  - apply (Parse_version_command_checks x04 x03 [x00]); reflexivity.
  - apply (Parse_version_command_checks x04 x01 [x00]);
      [reflexivity | left; reflexivity].
  - apply (Parse_version_command_checks x05 x03 [x00]);
      [reflexivity | right; right; reflexivity].
Defined.

(** ** The SOCKS5 address fields *)

(** [parseSocks5] after its first read, on a stream that has two bytes. *)
Lemma parseSocks5_two (hd : Header) (rsv t : byte) (r : Reader) :
  parseSocks5 hd (rsv :: t :: r) =
    let hd := set_addrType t (set_Reserved rsv hd) in
    if Byte.eqb t fqdnAddress then
      match ReadFull r 1 with
      | (inl err, r) => (hd, Some (Errorf ("failed to get header, " ++ ioError_Error err)), r)
      | (inr tmp, r) =>
          let addrLen := Z.to_nat (int (idx tmp 0)) in
          match ReadFull r (addrLen + 2) with
          | (inl err, r) => (hd, Some (Errorf ("failed to get header, " ++ ioError_Error err)), r)
          | (inr addr, r) =>
              (set_Port (buildPort (idx addr addrLen) (idx addr (addrLen + 1)))
                 (set_FQDN (string_of_list_byte (firstn addrLen addr)) hd), None, r)
          end
      end
    else if Byte.eqb t ipv4Address then
      match ReadFull r (IPv4len + 2) with
      | (inl err, r) => (hd, Some (Errorf ("failed to get header, " ++ ioError_Error err)), r)
      | (inr addr, r) =>
          (set_Port (buildPort (idx addr IPv4len) (idx addr (IPv4len + 1)))
             (set_IP (firstn IPv4len addr) hd), None, r)
      end
    else if Byte.eqb t ipv6Address then
      match ReadFull r (IPv6len + 2) with
      | (inl err, r) => (hd, Some (Errorf ("failed to get header, " ++ ioError_Error err)), r)
      | (inr addr, r) =>
          (set_Port (buildPort (idx addr IPv6len) (idx addr (IPv6len + 1)))
             (set_IP (firstn IPv6len addr) hd), None, r)
      end
    else (hd, Some unrecognizedAddrType, r).
Proof. reflexivity. Qed.

(** C4, as the spec states it, fails on a version-5 stream whose command
    byte is not 1, 2 or 3: the command is checked before the address type is
    read, so 0x05 0x09 0x00 0x02 fails with the unsupported-command error
    after two bytes, not with [unrecognizedAddrType] after four. *)
Lemma Parse_address_type_after_command :
  Parse [x05; x09; x00; x02] =
    (hdVerCmd x05 x09, Some (Errorf "unrecognized command[9]"), [x00; x02])
  /\ ~ (forall (c rsv t : byte) (r : Reader),
         t <> ipv4Address -> t <> fqdnAddress -> t <> ipv6Address ->
         exists h, Parse (x05 :: c :: rsv :: t :: r) = (h, Some unrecognizedAddrType, r)).
Proof.
  split; [reflexivity|].
  intros H.
  destruct (H x09 x00 x02 []) as [h Hh]; try discriminate.
Qed.

(** C4, amended. On a version-5 stream with a supported command whose fourth byte,
    the address type, is not 1, 3 or 4, Parse fails with
    [unrecognizedAddrType] and has consumed exactly the four bytes: the
    reader is left at the fifth.  So does a stream that begins
    0x05, 0x01, 0x00, 0x02. *)
Theorem Parse_unsupported_address_type (c rsv t : byte) (r : Reader) :
  (supportedCommand c ->
   t <> ipv4Address -> t <> fqdnAddress -> t <> ipv6Address ->
   Parse (x05 :: c :: rsv :: t :: r) =
     (mkHeader x05 c rsv zeroAddrSpec t, Some unrecognizedAddrType, r))
  /\ Parse (x05 :: x01 :: x00 :: x02 :: r) =
     (mkHeader x05 x01 x00 zeroAddrSpec x02, Some unrecognizedAddrType, r).
Proof.
  split; [|reflexivity].
  intros Hc H1 H3 H4.
  change x05 with socks5Version at 1.
  rewrite (Parse_socks5 c _ Hc), parseSocks5_two. cbv zeta.
  apply byte_eqb_neq in H1, H3, H4. rewrite H1, H3, H4. reflexivity.
Qed.

Lemma Parse_unsupported_address_type_witness :
  Parse [x05; x02; x00; x05; x2a] =
    (mkHeader x05 x02 x00 zeroAddrSpec x05, Some unrecognizedAddrType, [x2a]).
Proof.
  apply (Parse_unsupported_address_type x02 x00 x05 [x2a]);
    [right; left; reflexivity | discriminate | discriminate | discriminate].
Defined.

(** Parse on a version-5 domain-type stream that has its length byte. *)
Lemma Parse_domain (c rsv n : byte) (r : Reader) :
  supportedCommand c ->
  Parse (x05 :: c :: rsv :: x03 :: n :: r) =
    match ReadFull r (Z.to_nat (int n) + 2) with
    | (inl err, r') =>
        (hdSocks5 c rsv x03, Some (Errorf ("failed to get header, " ++ ioError_Error err)), r')
    | (inr addr, r') =>
        (set_Port (buildPort (idx addr (Z.to_nat (int n))) (idx addr (Z.to_nat (int n) + 1)))
           (set_FQDN (string_of_list_byte (firstn (Z.to_nat (int n)) addr))
              (hdSocks5 c rsv x03)), None, r')
    end.
Proof.
  intros Hc. change x05 with socks5Version at 1.
  rewrite (Parse_socks5 c _ Hc). reflexivity.
Qed.

Lemma idx_app_at (dom : list byte) (hi lo : byte) :
  idx (dom ++ [hi; lo]) (List.length dom) = hi
  /\ idx (dom ++ [hi; lo]) (List.length dom + 1) = lo.
Proof.
  unfold idx. split.
  - rewrite app_nth2 by lia. rewrite Nat.sub_diag. reflexivity.
  - rewrite app_nth2 by lia.
    replace (List.length dom + 1 - List.length dom)%nat with 1%nat by lia.
    reflexivity.
Qed.

Lemma firstn_app_exact (dom tl : list byte) :
  firstn (List.length dom) (dom ++ tl) = dom.
Proof.
  rewrite firstn_app, Nat.sub_diag, firstn_all. simpl. apply app_nil_r.
Qed.

(** A complete domain-type request decodes to its domain and port, and the
    reader is left after the port. *)
Lemma Parse_domain_ok (c rsv n : byte) (dom : list byte) (hi lo : byte) (rest : Reader) :
  supportedCommand c ->
  List.length dom = Z.to_nat (int n) ->
  Parse (x05 :: c :: rsv :: x03 :: n :: dom ++ hi :: lo :: rest) =
    (mkHeader x05 c rsv (mkAddrSpec (string_of_list_byte dom) [] (buildPort hi lo)) x03,
     None, rest).
Proof.
  intros Hc Hlen. rewrite (Parse_domain c rsv n _ Hc).
  replace (dom ++ hi :: lo :: rest) with ((dom ++ [hi; lo]) ++ rest)
    by (rewrite <- app_assoc; reflexivity).
  rewrite <- Hlen.
  replace (List.length dom + 2)%nat with (List.length (dom ++ [hi; lo]))
    by (rewrite length_app; reflexivity).
  rewrite ReadFull_app.
  destruct (idx_app_at dom hi lo) as [-> ->].
  rewrite firstn_app_exact. reflexivity.
Qed.

(** A domain-type request whose stream ends before the domain and port are
    complete fails with the error of a short read. *)
Lemma Parse_domain_short (c rsv n : byte) (r : Reader) :
  supportedCommand c ->
  (List.length r < Z.to_nat (int n) + 2)%nat ->
  Parse (x05 :: c :: rsv :: x03 :: n :: r) =
    (hdSocks5 c rsv x03,
     Some (Errorf ("failed to get header, " ++
             ioError_Error (match r with [] => EOF | _ => ErrUnexpectedEOF end))),
     []).
Proof.
  intros Hc Hlen. rewrite (Parse_domain c rsv n _ Hc).
  destruct (ReadFull r (Z.to_nat (int n) + 2)) as [[e|buf] r'] eqn:E.
  - apply ReadFull_short in E. destruct E as (_ & -> & ->). reflexivity.
  - apply ReadFull_ok in E. destruct E as [-> E].
    rewrite length_app in Hlen. lia.
Qed.

(** C5, as the spec states it, fails on a version-5 domain-type stream whose
    command byte is not 1, 2 or 3: 0x05 0x09 0x00 0x03 0x00 0x00 0x50, with
    the length byte 0 and its two port bytes, does not decode to the empty
    domain but fails with the unsupported-command error after two bytes. *)
Lemma Parse_domain_after_command :
  Parse [x05; x09; x00; x03; x00; x00; x50] =
    (hdVerCmd x05 x09, Some (Errorf "unrecognized command[9]"),
     [x00; x03; x00; x00; x50])
  /\ ~ (forall (c rsv hi lo : byte) (rest : Reader),
         exists h,
           Parse (x05 :: c :: rsv :: x03 :: x00 :: hi :: lo :: rest) = (h, None, rest)
           /\ FQDN (Address h) = "").
Proof.
  split; [reflexivity|].
  intros H.
  destruct (H x09 x00 x00 x50 []) as [h [Hh _]]. discriminate Hh.
Qed.

(** C5, amended. On a version-5 domain-type stream with a supported command: a
    length byte of 0 followed by the two port bytes decodes to the empty
    domain name with no error; a length byte N followed by N domain bytes and
    2 port bytes decodes to that domain and port and leaves the reader just
    after these N+2 bytes, while fewer than N+2 further bytes make Parse fail
    with the error of a short read; so with N = 255, fewer than 257 further
    bytes fail with that error. *)
Theorem Parse_domain_length (c rsv : byte) :
  supportedCommand c ->
  (forall hi lo rest,
      Parse (x05 :: c :: rsv :: x03 :: x00 :: hi :: lo :: rest) =
        (mkHeader x05 c rsv (mkAddrSpec "" [] (buildPort hi lo)) x03, None, rest))
  /\ (forall n dom hi lo rest,
      Z.of_nat (List.length dom) = int n ->
      Parse (x05 :: c :: rsv :: x03 :: n :: dom ++ hi :: lo :: rest) =
        (mkHeader x05 c rsv (mkAddrSpec (string_of_list_byte dom) [] (buildPort hi lo)) x03,
         None, rest))
  /\ (forall n r,
      Z.of_nat (List.length r) < int n + 2 ->
      Parse (x05 :: c :: rsv :: x03 :: n :: r) =
        (mkHeader x05 c rsv zeroAddrSpec x03,
         Some (Errorf ("failed to get header, " ++
                 ioError_Error (match r with [] => EOF | _ => ErrUnexpectedEOF end))),
         []))
  /\ (forall r,
      (List.length r < 257)%nat ->
      exists e,
        Parse (x05 :: c :: rsv :: x03 :: xff :: r) =
          (mkHeader x05 c rsv zeroAddrSpec x03,
           Some (Errorf ("failed to get header, " ++ ioError_Error e)), [])).
Proof.
  intros Hc. split; [|split; [|split]].
  - intros hi lo rest.
    apply (Parse_domain_ok c rsv x00 [] hi lo rest Hc). reflexivity.
  - intros n dom hi lo rest Hlen.
    apply Parse_domain_ok; [assumption|]. lia.
  - intros n r Hlen. pose proof (int_range n).
    apply Parse_domain_short; [assumption|]. lia.
  - intros r Hlen. eexists.
    apply Parse_domain_short; [assumption|].
    change (Z.to_nat (int xff)) with 255%nat. lia.
Qed.

Lemma Parse_domain_length_witness :
  Parse [x05; x01; x00; x03; x00; x00; x50] =
    (mkHeader x05 x01 x00 (mkAddrSpec "" [] 80) x03, None, [])
  /\ Parse [x05; x01; x00; x03; x02; x61; x62; x01; xbb; x2a] =
    (mkHeader x05 x01 x00 (mkAddrSpec "ab" [] 443) x03, None, [x2a])
  /\ Parse [x05; x01; x00; x03; x02; x61; x62; x01] =
    (mkHeader x05 x01 x00 zeroAddrSpec x03,
     Some (Errorf "failed to get header, unexpected EOF"), [])
  /\ (exists e,
      Parse (x05 :: x01 :: x00 :: x03 :: xff :: repeat x61 256) =
        (mkHeader x05 x01 x00 zeroAddrSpec x03,
         Some (Errorf ("failed to get header, " ++ ioError_Error e)), [])).
Proof.
  assert (Hc : supportedCommand x01) by (left; reflexivity).
  pose proof (Parse_domain_length x01 x00 Hc) as (H0 & Hn & Hshort & H255).
  split; [|split; [|split]].
  - exact (H0 x00 x50 []).
  - exact (Hn x02 [x61; x62] x01 xbb [x2a] eq_refl).
  - exact (Hshort x02 [x61; x62; x01] eq_refl).
  - apply (H255 (repeat x61 256)). rewrite repeat_length. lia.
Defined.

(** ** Bytes *)

Lemma length_list_byte_of_string (s : string) :
  List.length (list_byte_of_string s) = String.length s.
Proof.
  unfold list_byte_of_string. rewrite length_map.
  induction s as [|a s IH]; simpl; [reflexivity|].
  rewrite IH. reflexivity.
Qed.

Lemma length_string_of_list_byte (l : list byte) :
  String.length (string_of_list_byte l) = List.length l.
Proof.
  rewrite <- length_list_byte_of_string, list_byte_of_string_of_list_byte.
  reflexivity.
Qed.

(** What [Bytes] appends for a version-5 header. *)
Lemma Bytes_socks5 (h : Header) :
  Version h = socks5Version ->
  Bytes h =
    [socks5Version; Command h; Reserved h; addrType h] ++
    (if Byte.eqb (addrType h) fqdnAddress then
       uint8 (Z.of_nat (String.length (FQDN (Address h))))
         :: list_byte_of_string (FQDN (Address h))
     else if Byte.eqb (addrType h) ipv4Address then To4 (IP (Address h))
     else if Byte.eqb (addrType h) ipv6Address then To16 (IP (Address h))
     else []) ++
    [fst (breakPort (Port (Address h))); snd (breakPort (Port (Address h)))].
Proof.
  intros Hv. unfold Bytes. rewrite Hv.
  destruct (breakPort (Port (Address h))) as [hiPort loPort].
  change (Byte.eqb socks5Version socks4Version) with false.
  change (Byte.eqb socks5Version socks5Version) with true.
  cbv iota. simpl fst; simpl snd.
  destruct (Byte.eqb (addrType h) fqdnAddress);
    [|destruct (Byte.eqb (addrType h) ipv4Address);
      [|destruct (Byte.eqb (addrType h) ipv6Address)]];
    simpl; rewrite <- ?app_assoc; reflexivity.
Qed.

(** What [Bytes] appends for a version-4 header. *)
Lemma Bytes_socks4 (h : Header) :
  Version h = socks4Version ->
  Bytes h =
    [socks4Version; Command h;
     fst (breakPort (Port (Address h))); snd (breakPort (Port (Address h)))]
    ++ IP (Address h).
Proof.
  intros Hv. unfold Bytes. rewrite Hv.
  destruct (breakPort (Port (Address h))) as [hiPort loPort].
  reflexivity.
Qed.

(** C10. For a version-5 domain-type header, Bytes emits one length byte,
    equal to the length of the domain modulo 256, followed by every byte of
    the domain (and then the port): the length byte is the true length
    exactly when the domain has at most 255 bytes, and wraps modulo 256 for
    a longer one. *)
Theorem Bytes_domain_length_byte (h : Header) :
  Version h = socks5Version ->
  addrType h = fqdnAddress ->
  let n := Z.of_nat (String.length (FQDN (Address h))) in
  Bytes h =
    [socks5Version; Command h; Reserved h; fqdnAddress; uint8 n] ++
    list_byte_of_string (FQDN (Address h)) ++
    [fst (breakPort (Port (Address h))); snd (breakPort (Port (Address h)))]
  /\ int (uint8 n) = n mod 256
  /\ Z.of_nat (List.length (list_byte_of_string (FQDN (Address h)))) = n
  /\ (int (uint8 n) = n <-> n <= 255).
Proof.
  intros Hv Ht n. split; [|split; [|split]].
  - rewrite (Bytes_socks5 h Hv), Ht. reflexivity.
  - apply int_uint8.
  - rewrite length_list_byte_of_string. reflexivity.
  - rewrite int_uint8. subst n.
    pose proof (Z.mod_pos_bound (Z.of_nat (String.length (FQDN (Address h)))) 256 ltac:(lia)).
    split; intros H'.
    + lia.
    + apply Z.mod_small. lia.
Qed.

Lemma Bytes_domain_length_byte_witness :
  Bytes (mkHeader x05 x01 x00 (mkAddrSpec "ab" [] 443) x03) =
    [x05; x01; x00; x03; x02] ++ [x61; x62] ++ [x01; xbb]
  /\ int (uint8 2) = 2 mod 256
  /\ Z.of_nat (List.length (list_byte_of_string "ab")) = 2
  /\ (int (uint8 2) = 2 <-> 2 <= 255).
Proof.
  exact (Bytes_domain_length_byte
           (mkHeader x05 x01 x00 (mkAddrSpec "ab" [] 443) x03) eq_refl eq_refl).
Defined.

(** A domain of 256 bytes is emitted whole behind the length byte 0. *)
Example Bytes_domain_256 :
  Bytes (mkHeader x05 x01 x00 (mkAddrSpec (string_of_list_byte (repeat x61 256)) [] 80) x03)
  = [x05; x01; x00; x03; x00] ++ repeat x61 256 ++ [x00; x50].
Proof. vm_compute. reflexivity. Qed.

(** ** Round trip *)

(** A buffer of [n + 2] bytes is its first [n] bytes and the two after. *)
Lemma buf_split (n : nat) (buf : list byte) :
  List.length buf = (n + 2)%nat ->
  buf = firstn n buf ++ [idx buf n; idx buf (n + 1)].
Proof.
  revert buf. induction n as [|n IH]; intros buf Hlen.
  - destruct buf as [|x [|y [|z buf]]]; try discriminate Hlen. reflexivity.
  - destruct buf as [|a buf]; [discriminate Hlen|].
    simpl in Hlen. injection Hlen as Hlen.
    simpl. unfold idx in *. simpl. f_equal. apply IH. assumption.
Qed.

Lemma length_firstn_buf (n : nat) (buf : list byte) :
  List.length buf = (n + 2)%nat -> List.length (firstn n buf) = n.
Proof.
  intros Hlen. rewrite length_firstn. lia.
Qed.

Lemma To4_length4 (ip : net_IP) : List.length ip = IPv4len -> To4 ip = ip.
Proof.
  intros H. unfold To4. rewrite H. reflexivity.
Qed.

Lemma To16_length16 (ip : net_IP) : List.length ip = IPv6len -> To16 ip = ip.
Proof.
  intros H. unfold To16. rewrite H. reflexivity.
Qed.

(** The headers a successful [parseSocks4] returns. *)
Lemma parseSocks4_ok (hd h : Header) (r rest : Reader) :
  parseSocks4 hd r = (h, None, rest) ->
  exists hi lo a b c d,
    r = [hi; lo; a; b; c; d] ++ rest
    /\ h = set_IP [a; b; c; d] (set_Port (buildPort hi lo) hd).
Proof.
  unfold parseSocks4.
  destruct (ReadFull r (headPORTLen + IPv4len)) as [[e|buf] r'] eqn:E;
    [discriminate|].
  intros H. injection H as <- <-.
  apply ReadFull_ok in E. destruct E as [-> Hlen].
  destruct buf as [|hi [|lo [|a [|b [|c [|d [|x buf]]]]]]]; try discriminate Hlen.
  exists hi, lo, a, b, c, d. split; reflexivity.
Qed.

(** The headers a successful [parseSocks5] returns: a domain, an IPv4
    address or an IPv6 address, by the address type. *)
Lemma parseSocks5_ok (hd h : Header) (r rest : Reader) :
  parseSocks5 hd r = (h, None, rest) ->
  exists rsv t addr hi lo,
    let hd' := set_addrType t (set_Reserved rsv hd) in
    ((t = fqdnAddress
      /\ r = [rsv; t; uint8 (Z.of_nat (List.length addr))] ++ addr ++ [hi; lo] ++ rest
      /\ (List.length addr <= 255)%nat
      /\ h = set_Port (buildPort hi lo) (set_FQDN (string_of_list_byte addr) hd'))
     \/ ((t = ipv4Address /\ List.length addr = IPv4len
          \/ t = ipv6Address /\ List.length addr = IPv6len)
         /\ r = [rsv; t] ++ addr ++ [hi; lo] ++ rest
         /\ h = set_Port (buildPort hi lo) (set_IP addr hd'))).
Proof.
  destruct r as [|rsv [|t r]]; try discriminate.
  rewrite parseSocks5_two. cbv zeta.
  destruct (Byte.eqb t fqdnAddress) eqn:E3.
  { apply byte_eqb_eq in E3. subst t.
    destruct r as [|n r]; [discriminate|].
    change (ReadFull (n :: r) 1) with (@inr ioError _ [n], r).
    cbv beta iota. change (idx [n] 0) with n.
    destruct (ReadFull r (Z.to_nat (int n) + 2)) as [[e|buf] r'] eqn:E;
      [discriminate|].
    intros H. injection H as <- <-.
    apply ReadFull_ok in E. destruct E as [-> Hlen].
    pose proof (int_range n) as Hn.
    exists rsv, fqdnAddress, (firstn (Z.to_nat (int n)) buf),
      (idx buf (Z.to_nat (int n))), (idx buf (Z.to_nat (int n) + 1)).
    left. rewrite (length_firstn_buf _ _ Hlen).
    rewrite Z2Nat.id, uint8_int by lia.
    repeat split; [|lia].
    rewrite (buf_split _ buf Hlen) at 1. rewrite <- app_assoc. reflexivity. }
  destruct (Byte.eqb t ipv4Address) eqn:E1.
  { apply byte_eqb_eq in E1. subst t.
    destruct (ReadFull r (IPv4len + 2)) as [[e|buf] r'] eqn:E; [discriminate|].
    intros H. injection H as <- <-.
    apply ReadFull_ok in E. destruct E as [-> Hlen].
    exists rsv, ipv4Address, (firstn IPv4len buf),
      (idx buf IPv4len), (idx buf (IPv4len + 1)).
    right. rewrite (length_firstn_buf _ _ Hlen).
    repeat split; [left; split; reflexivity|].
    rewrite (buf_split _ buf Hlen) at 1. rewrite <- app_assoc. reflexivity. }
  destruct (Byte.eqb t ipv6Address) eqn:E4; [|discriminate].
  apply byte_eqb_eq in E4. subst t.
  destruct (ReadFull r (IPv6len + 2)) as [[e|buf] r'] eqn:E; [discriminate|].
  intros H. injection H as <- <-.
  apply ReadFull_ok in E. destruct E as [-> Hlen].
  exists rsv, ipv6Address, (firstn IPv6len buf),
    (idx buf IPv6len), (idx buf (IPv6len + 1)).
  right. rewrite (length_firstn_buf _ _ Hlen).
  repeat split; [right; split; reflexivity|].
  rewrite (buf_split _ buf Hlen) at 1. rewrite <- app_assoc. reflexivity.
Qed.

(** A successful [Parse] went through one of the two branches, after a
    supported version and command. *)
Lemma Parse_ok (r : Reader) (h : Header) (rest : Reader) :
  Parse r = (h, None, rest) ->
  exists c r',
    (r = socks4Version :: c :: r'
     /\ (c = ConnectCommand \/ c = BindCommand)
     /\ parseSocks4 (hdVerCmd socks4Version c) r' = (h, None, rest))
    \/ (r = socks5Version :: c :: r'
        /\ supportedCommand c
        /\ parseSocks5 (hdVerCmd socks5Version c) r' = (h, None, rest)).
Proof.
  destruct r as [|v [|c r]]; try discriminate.
  rewrite Parse_two. intros H. exists c, r.
  destruct (Byte.eqb v socks5Version) eqn:E5;
    destruct (Byte.eqb v socks4Version) eqn:E4;
    simpl in H; try discriminate H.
  - apply byte_eqb_eq in E5, E4. subst v. discriminate E4.
  - apply byte_eqb_eq in E5. subst v. right.
    destruct (Byte.eqb c ConnectCommand) eqn:C1;
      [apply byte_eqb_eq in C1; subst c;
       split; [reflexivity|split; [left; reflexivity|exact H]]|].
    destruct (Byte.eqb c BindCommand) eqn:C2;
      [apply byte_eqb_eq in C2; subst c;
       split; [reflexivity|split; [right; left; reflexivity|exact H]]|].
    destruct (Byte.eqb c AssociateCommand) eqn:C3; simpl in H;
      [|discriminate H].
    apply byte_eqb_eq in C3; subst c.
    split; [reflexivity|split; [right; right; reflexivity|exact H]].
  - apply byte_eqb_eq in E4. subst v. left.
    destruct (Byte.eqb c ConnectCommand) eqn:C1;
      [apply byte_eqb_eq in C1; subst c;
       split; [reflexivity|split; [left; reflexivity|exact H]]|].
    destruct (Byte.eqb c BindCommand) eqn:C2;
      [apply byte_eqb_eq in C2; subst c;
       split; [reflexivity|split; [right; reflexivity|exact H]]|].
    destruct (Byte.eqb c AssociateCommand) eqn:C3; simpl in H; discriminate H.
Qed.

(** C1. When Parse decodes a header [h] from a stream, the bytes it consumed
    (the stream up to where the reader is left) are exactly [Bytes h], for
    both versions and the three SOCKS5 address types. *)
Theorem Parse_Bytes_roundtrip (r : Reader) (h : Header) (rest : Reader) :
  Parse r = (h, None, rest) ->
  exists B, r = B ++ rest /\ Bytes h = B.
Proof.
  intros H. exists (Bytes h). split; [|reflexivity].
  apply Parse_ok in H. destruct H as (c & r' & [(-> & Hc & H) | (-> & Hc & H)]).
  - apply parseSocks4_ok in H.
    destruct H as (hi & lo & a & b & c' & d & -> & ->).
    rewrite Bytes_socks4 by reflexivity.
    fields. rewrite breakPort_buildPort. reflexivity.
  - apply parseSocks5_ok in H.
    destruct H as (rsv & t & addr & hi & lo & H). cbv zeta in H.
    destruct H as [(-> & -> & Hlen & ->) | (Ht & -> & ->)].
    + rewrite Bytes_socks5 by reflexivity.
      fields. rewrite breakPort_buildPort.
      rewrite length_string_of_list_byte, list_byte_of_string_of_list_byte.
      change (Byte.eqb fqdnAddress fqdnAddress) with true. cbv iota.
      rewrite <- !app_assoc. reflexivity.
    + rewrite Bytes_socks5 by reflexivity.
      fields. rewrite breakPort_buildPort.
      destruct Ht as [[-> Hlen] | [-> Hlen]].
      * change (Byte.eqb ipv4Address fqdnAddress) with false.
        change (Byte.eqb ipv4Address ipv4Address) with true. cbv iota.
        rewrite (To4_length4 _ Hlen), <- !app_assoc. reflexivity.
      * change (Byte.eqb ipv6Address fqdnAddress) with false.
        change (Byte.eqb ipv6Address ipv4Address) with false.
        change (Byte.eqb ipv6Address ipv6Address) with true. cbv iota.
        rewrite (To16_length16 _ Hlen), <- !app_assoc. reflexivity.
Qed.

Lemma Parse_Bytes_roundtrip_witness :
  (exists B, [x04; x01; x00; x50; x0a; x00; x00; x01; x2a] = B ++ [x2a]
     /\ Bytes (mkHeader x04 x01 x00 (mkAddrSpec "" [x0a; x00; x00; x01] 80) x00) = B)
  /\ (exists B, [x05; x01; x00; x01; x7f; x00; x00; x01; x1f; x90] = B ++ []
     /\ Bytes (mkHeader x05 x01 x00 (mkAddrSpec "" [x7f; x00; x00; x01] 8080) x01) = B)
  /\ (exists B, [x05; x02; x00; x03; x02; x61; x62; x01; xbb; x2a] = B ++ [x2a]
     /\ Bytes (mkHeader x05 x02 x00 (mkAddrSpec "ab" [] 443) x03) = B)
  /\ (exists B, [x05; x03; x00; x04; x00; x00; x00; x00; x00; x00; x00; x00;
                 x00; x00; x00; x00; x00; x00; x00; x01; x00; x35] = B ++ []
     /\ Bytes (mkHeader x05 x03 x00
                 (mkAddrSpec "" [x00; x00; x00; x00; x00; x00; x00; x00;
                                 x00; x00; x00; x00; x00; x00; x00; x01] 53) x04) = B).
Proof.
  split; [|split; [|split]].
  - apply (Parse_Bytes_roundtrip
             [x04; x01; x00; x50; x0a; x00; x00; x01; x2a]). reflexivity.
  - apply (Parse_Bytes_roundtrip
             [x05; x01; x00; x01; x7f; x00; x00; x01; x1f; x90]). reflexivity.
  - apply (Parse_Bytes_roundtrip
             [x05; x02; x00; x03; x02; x61; x62; x01; xbb; x2a]). reflexivity.
  - apply (Parse_Bytes_roundtrip
             [x05; x03; x00; x04; x00; x00; x00; x00; x00; x00; x00; x00;
              x00; x00; x00; x00; x00; x00; x00; x01; x00; x35]). reflexivity.
Defined.

(** ** What a decoded address holds *)

Lemma string_of_list_byte_empty (l : list byte) :
  string_of_list_byte l = "" <-> l = [].
Proof.
  split; [|intros ->; reflexivity].
  intros H. apply length_zero_iff_nil.
  rewrite <- length_string_of_list_byte, H. reflexivity.
Qed.

Lemma uint8_length_zero (l : list byte) :
  (List.length l <= 255)%nat ->
  uint8 (Z.of_nat (List.length l)) = x00 <-> l = [].
Proof.
  intros Hlen. split; [|intros ->; reflexivity].
  intros H. apply length_zero_iff_nil.
  assert (Hi : int (uint8 (Z.of_nat (List.length l))) = 0) by (rewrite H; reflexivity).
  rewrite int_uint8, Z.mod_small in Hi by lia. lia.
Qed.

(** C8, as the spec states it, fails on the empty domain name: the request
    0x05 0x01 0x00 0x03 0x00 0x00 0x50 decodes without error to an address
    with neither a domain name nor an IP. *)
Lemma Parse_empty_domain_has_neither :
  Parse [x05; x01; x00; x03; x00; x00; x50] =
    (mkHeader x05 x01 x00 (mkAddrSpec "" [] 80) x03, None, [])
  /\ ~ (forall r h rest,
         Parse r = (h, None, rest) ->
         (FQDN (Address h) <> "" /\ IP (Address h) = [])
         \/ (FQDN (Address h) = "" /\ IP (Address h) <> [])).
Proof.
  split; [reflexivity|].
  intros H.
  destruct (H [x05; x01; x00; x03; x00; x00; x50] _ _ eq_refl)
    as [[Hd _] | [_ Hi]]; [apply Hd | apply Hi]; reflexivity.
Qed.

(** C8, amended. An address decoded by a successful Parse never has both a
    domain name and an IP; it has neither exactly when the request is a
    version-5 domain-type request whose length byte is 0, and exactly one of
    the two otherwise; its port is between 0 and 65535. *)
Theorem Parse_address_populated (r : Reader) (h : Header) (rest : Reader) :
  Parse r = (h, None, rest) ->
  (FQDN (Address h) <> "" -> IP (Address h) = [])
  /\ ((FQDN (Address h) = "" /\ IP (Address h) = [])
      <-> (Version h = socks5Version /\ addrType h = fqdnAddress
           /\ nth_error r 4 = Some x00))
  /\ 0 <= Port (Address h) <= 65535.
Proof.
  intros H.
  apply Parse_ok in H. destruct H as (c & r' & [(-> & Hc & H) | (-> & Hc & H)]).
  - apply parseSocks4_ok in H.
    destruct H as (hi & lo & a & b & c' & d & -> & ->). fields.
    split; [intros Hf; exfalso; apply Hf; reflexivity|].
    split; [|apply buildPort_range].
    split; [intros [_ Hip]; discriminate Hip | intros (Hv & _); discriminate Hv].
  - apply parseSocks5_ok in H.
    destruct H as (rsv & t & addr & hi & lo & H). cbv zeta in H.
    destruct H as [(-> & -> & Hlen & ->) | (Ht & -> & ->)]; fields.
    + split; [reflexivity|]. split; [|apply buildPort_range].
      change (nth_error _ 4) with (Some (uint8 (Z.of_nat (List.length addr)))).
      rewrite string_of_list_byte_empty.
      split.
      * intros [-> _]. repeat split.
      * intros (_ & _ & Hn). injection Hn as Hn.
        apply uint8_length_zero in Hn; [|assumption]. split; [assumption|reflexivity].
    + split; [intros Hf; exfalso; apply Hf; reflexivity|].
      split; [|apply buildPort_range].
      split.
      * intros [_ ->]. destruct Ht as [[_ Hl] | [_ Hl]]; discriminate Hl.
      * intros (_ & Hty & _). destruct Ht as [[-> _] | [-> _]]; discriminate Hty.
Qed.

Lemma Parse_address_populated_witness :
  (FQDN (mkAddrSpec "ab" [] 443) <> "" -> IP (mkAddrSpec "ab" [] 443) = [])
  /\ ((FQDN (mkAddrSpec "ab" [] 443) = "" /\ IP (mkAddrSpec "ab" [] 443) = [])
      <-> (x05 = socks5Version /\ x03 = fqdnAddress
           /\ nth_error [x05; x02; x00; x03; x02; x61; x62; x01; xbb; x2a] 4 = Some x00))
  /\ 0 <= Port (mkAddrSpec "ab" [] 443) <= 65535.
Proof.
  exact (Parse_address_populated
           [x05; x02; x00; x03; x02; x61; x62; x01; xbb; x2a]
           (mkHeader x05 x02 x00 (mkAddrSpec "ab" [] 443) x03) [x2a] eq_refl).
Defined.

(** ** The address bytes Bytes emits *)

Lemma To4_mapped (a b c d : byte) :
  To4 (v4InV6Prefix ++ [a; b; c; d]) = [a; b; c; d].
Proof. reflexivity. Qed.

(** [To4] gives 4 bytes on a 4-byte address and on the 16-byte form of an
    IPv4 address, and [nil] on every other slice. *)
Lemma To4_cases (ip : net_IP) :
  (List.length ip = 4%nat \/ v4Mapped ip -> List.length (To4 ip) = 4%nat)
  /\ (~ (List.length ip = 4%nat \/ v4Mapped ip) -> To4 ip = []).
Proof.
  split.
  - intros [H | (a & b & c & d & ->)].
    + rewrite To4_length4; assumption.
    + reflexivity.
  - intros H. unfold To4.
    destruct (Nat.eqb (List.length ip) IPv4len) eqn:E4.
    { apply Nat.eqb_eq in E4. exfalso. apply H. left. exact E4. }
    destruct (Nat.eqb (List.length ip) IPv6len && isZeros (firstn 10 ip)
              && Byte.eqb (idx ip 10) xff && Byte.eqb (idx ip 11) xff) eqn:E;
      [|reflexivity].
    exfalso. apply H. right.
    apply andb_true_iff in E. destruct E as [E E11].
    apply andb_true_iff in E. destruct E as [E E10].
    apply andb_true_iff in E. destruct E as [E16 Ez].
    apply Nat.eqb_eq in E16.
    do 16 (destruct ip as [|? ip]; [discriminate E16|]).
    destruct ip; [|discriminate E16].
    unfold idx in E10, E11. simpl in E10, E11, Ez.
    apply byte_eqb_eq in E10, E11. subst.
    repeat (apply andb_true_iff in Ez; destruct Ez as [?Hz Ez]).
    repeat match goal with
           | Hb : Byte.eqb _ x00 = true |- _ => apply byte_eqb_eq in Hb
           end.
    subst. unfold v4Mapped. do 4 eexists. reflexivity.
Qed.

(** [To16] gives 16 bytes on a slice of 4 or of 16 bytes, and [nil] on every
    other slice. *)
Lemma To16_cases (ip : net_IP) :
  (List.length ip = 4%nat -> To16 ip = v4InV6Prefix ++ ip)
  /\ (List.length ip = 16%nat -> To16 ip = ip)
  /\ (List.length ip = 4%nat \/ List.length ip = 16%nat -> List.length (To16 ip) = 16%nat)
  /\ (~ (List.length ip = 4%nat \/ List.length ip = 16%nat) -> To16 ip = []).
Proof.
  unfold To16. repeat split.
  - intros H. rewrite H. reflexivity.
  - intros H. rewrite H. reflexivity.
  - intros [H | H]; rewrite H.
    + change (Nat.eqb 4 IPv4len) with true. cbv iota.
      rewrite length_app, H. reflexivity.
    + simpl. assumption.
  - intros H.
    destruct (Nat.eqb (List.length ip) IPv4len) eqn:E4.
    { apply Nat.eqb_eq in E4. exfalso. apply H. left. exact E4. }
    destruct (Nat.eqb (List.length ip) IPv6len) eqn:E6; [|reflexivity].
    apply Nat.eqb_eq in E6. exfalso. apply H. right. exact E6.
Qed.

(** C7, as the spec states it, fails on headers whose IP is not of the width
    of their version or address type: a version-5 IPv4-type header that holds
    the IPv6 address ::1 is emitted with no address bytes, and so is an
    IPv6-type header that holds no IP; a version-4 header that holds an
    address in its 16-byte form is emitted with its 16 bytes. *)
Lemma Bytes_address_not_forced :
  Bytes (mkHeader x05 x01 x00
           (mkAddrSpec "" [x00; x00; x00; x00; x00; x00; x00; x00;
                           x00; x00; x00; x00; x00; x00; x00; x01] 80) x01)
    = [x05; x01; x00; x01; x00; x50]
  /\ Bytes (mkHeader x05 x01 x00 (mkAddrSpec "example.com" [] 80) x04)
    = [x05; x01; x00; x04; x00; x50]
  /\ Bytes (mkHeader x04 x01 x00
           (mkAddrSpec "" [x00; x00; x00; x00; x00; x00; x00; x00;
                           x00; x00; xff; xff; x0a; x00; x00; x01] 80) x00)
    = [x04; x01; x00; x50; x00; x00; x00; x00; x00; x00; x00; x00;
       x00; x00; xff; xff; x0a; x00; x00; x01]
  /\ ~ (forall h : Header,
         (Version h = socks4Version ->
          exists addr, List.length addr = 4%nat
            /\ Bytes h = [socks4Version; Command h; hiPort h; loPort h] ++ addr)
         /\ (Version h = socks5Version -> addrType h = ipv4Address ->
          exists addr, List.length addr = 4%nat
            /\ Bytes h = [socks5Version; Command h; Reserved h; ipv4Address]
                         ++ addr ++ [hiPort h; loPort h])
         /\ (Version h = socks5Version -> addrType h = ipv6Address ->
          exists addr, List.length addr = 16%nat
            /\ Bytes h = [socks5Version; Command h; Reserved h; ipv6Address]
                         ++ addr ++ [hiPort h; loPort h])).
Proof.
  repeat split.
  intros H.
  destruct (H (mkHeader x05 x01 x00
                 (mkAddrSpec "" [x00; x00; x00; x00; x00; x00; x00; x00;
                                 x00; x00; x00; x00; x00; x00; x00; x01] 80) x01))
    as (_ & H4 & _).
  destruct (H4 eq_refl eq_refl) as (addr & Hlen & HB).
  apply (f_equal (@List.length byte)) in HB.
  rewrite !length_app, Hlen in HB. discriminate HB.
Qed.

(** C7, amended. For a version-4 header whose IP is held as 4 bytes, Bytes
    emits exactly these 4 address bytes.  For a version-5 header of the IPv4
    type it emits [To4] of the IP: exactly 4 bytes when the IP is held as 4
    bytes or is the 16-byte form of an IPv4 address (then its last 4 bytes),
    and no address byte otherwise.  For a version-5 header of the IPv6 type
    it emits [To16] of the IP: exactly 16 bytes when the IP is held as 4
    bytes (then behind the IPv4-in-IPv6 prefix) or as 16 bytes, and no
    address byte otherwise. *)
Theorem Bytes_address_width (h : Header) :
  let ip := IP (Address h) in
  (Version h = socks4Version -> List.length ip = 4%nat ->
     Bytes h = [socks4Version; Command h; hiPort h; loPort h] ++ ip)
  /\ (Version h = socks5Version -> addrType h = ipv4Address ->
     Bytes h = [socks5Version; Command h; Reserved h; ipv4Address]
               ++ To4 ip ++ [hiPort h; loPort h]
     /\ (List.length ip = 4%nat -> To4 ip = ip)
     /\ (forall a b c d, ip = v4InV6Prefix ++ [a; b; c; d] -> To4 ip = [a; b; c; d])
     /\ (List.length ip = 4%nat \/ v4Mapped ip -> List.length (To4 ip) = 4%nat)
     /\ (~ (List.length ip = 4%nat \/ v4Mapped ip) -> To4 ip = []))
  /\ (Version h = socks5Version -> addrType h = ipv6Address ->
     Bytes h = [socks5Version; Command h; Reserved h; ipv6Address]
               ++ To16 ip ++ [hiPort h; loPort h]
     /\ (List.length ip = 4%nat -> To16 ip = v4InV6Prefix ++ ip)
     /\ (List.length ip = 16%nat -> To16 ip = ip)
     /\ (List.length ip = 4%nat \/ List.length ip = 16%nat ->
         List.length (To16 ip) = 16%nat)
     /\ (~ (List.length ip = 4%nat \/ List.length ip = 16%nat) -> To16 ip = [])).
Proof.
  intros ip. split; [|split].
  - intros Hv _. apply Bytes_socks4. assumption.
  - intros Hv Ht. split; [rewrite (Bytes_socks5 h Hv), Ht; reflexivity|].
    split; [apply To4_length4|].
    split; [intros a b c d ->; apply To4_mapped|].
    apply To4_cases.
  - intros Hv Ht. split; [rewrite (Bytes_socks5 h Hv), Ht; reflexivity|].
    apply To16_cases.
Qed.

Lemma Bytes_address_width_witness :
  Bytes (mkHeader x04 x01 x00 (mkAddrSpec "" [x0a; x00; x00; x01] 80) x00)
    = [x04; x01; x00; x50] ++ [x0a; x00; x00; x01]
  /\ Bytes (mkHeader x05 x01 x00
              (mkAddrSpec "" (v4InV6Prefix ++ [x0a; x00; x00; x01]) 80) x01)
    = [x05; x01; x00; x01] ++ [x0a; x00; x00; x01] ++ [x00; x50]
  /\ Bytes (mkHeader x05 x01 x00 (mkAddrSpec "" [x0a; x00; x00; x01] 80) x04)
    = [x05; x01; x00; x04] ++ (v4InV6Prefix ++ [x0a; x00; x00; x01]) ++ [x00; x50].
Proof.
  split; [|split].
  - exact (proj1 (Bytes_address_width
             (mkHeader x04 x01 x00 (mkAddrSpec "" [x0a; x00; x00; x01] 80) x00))
             eq_refl eq_refl).
  - exact (proj1 (proj1 (proj2 (Bytes_address_width
             (mkHeader x05 x01 x00
                (mkAddrSpec "" (v4InV6Prefix ++ [x0a; x00; x00; x01]) 80) x01)))
             eq_refl eq_refl)).
  - exact (proj1 (proj2 (proj2 (Bytes_address_width
             (mkHeader x05 x01 x00 (mkAddrSpec "" [x0a; x00; x00; x01] 80) x04)))
             eq_refl eq_refl)).
Defined.

(** ** The dial string *)

Lemma hasChar_app (c : ascii) (s1 s2 : string) :
  hasChar c (s1 ++ s2)%string = hasChar c s1 || hasChar c s2.
Proof.
  induction s1 as [|a s1 IH]; simpl; [reflexivity|].
  rewrite IH. apply orb_assoc.
Qed.

Lemma fmt_d_no_colon (b : byte) : hasChar ":"%char (fmt_d b) = false.
Proof. destruct b; reflexivity. Qed.

(** The text [IP_String] gives a 4-byte address: dotted decimal. *)
Lemma IP_String_4 (x y z w : byte) :
  IP_String [x; y; z; w] =
    (fmt_d x ++ "." ++ fmt_d y ++ "." ++ fmt_d z ++ "." ++ fmt_d w)%string.
Proof. reflexivity. Qed.

(** C9. [Address] renders the text form of the IP joined with the port when
    an IP is present, whatever the domain name, and the domain name joined
    with the port only when no IP is present.  Joining puts a colon and the
    decimal port after the host (in brackets when the host has a colon); a
    4-byte IP is rendered in dotted decimal. *)
Theorem Address_prefers_IP (a : AddrSpec) :
  (IP a <> [] -> AddrSpec_Address a = JoinHostPort (IP_String (IP a)) (Itoa (Port a)))
  /\ (IP a = [] -> AddrSpec_Address a = JoinHostPort (FQDN a) (Itoa (Port a)))
  /\ (forall host port,
        hasChar ":"%char host = false
        /\ JoinHostPort host port = (host ++ ":" ++ port)%string
        \/ hasChar ":"%char host = true
           /\ JoinHostPort host port = ("[" ++ host ++ "]:" ++ port)%string)
  /\ (forall x y z w, IP a = [x; y; z; w] ->
        AddrSpec_Address a =
          ((fmt_d x ++ "." ++ fmt_d y ++ "." ++ fmt_d z ++ "." ++ fmt_d w)
           ++ ":" ++ Itoa (Port a))%string).
Proof.
  split; [|split; [|split]].
  - intros H. unfold AddrSpec_Address. destruct (IP a); [contradiction|reflexivity].
  - intros H. unfold AddrSpec_Address. rewrite H. reflexivity.
  - intros host port. unfold JoinHostPort.
    destruct (hasChar ":"%char host); [right|left]; split; reflexivity.
  - intros x y z w H. unfold AddrSpec_Address. rewrite H.
    change (negb (Nat.eqb 0 (List.length [x; y; z; w]))) with true. cbv iota.
    rewrite IP_String_4. unfold JoinHostPort.
    rewrite !hasChar_app, !fmt_d_no_colon. reflexivity.
Qed.

Lemma Address_prefers_IP_witness :
  AddrSpec_Address (mkAddrSpec "example.com" [x0a; x00; x00; x01] 80) = "10.0.0.1:80"
  /\ AddrSpec_Address (mkAddrSpec "example.com" [] 80) = "example.com:80"
  /\ AddrSpec_Address (mkAddrSpec "example.com"
                 [x20; x01; x0d; xb8; x00; x00; x00; x00;
                  x00; x00; x00; x00; x00; x00; x00; x01] 443)
     = JoinHostPort "2001:db8::1" "443".
Proof.
  split; [|split].
  - exact (proj2 (proj2 (proj2 (Address_prefers_IP
             (mkAddrSpec "example.com" [x0a; x00; x00; x01] 80))))
             x0a x00 x00 x01 eq_refl).
  - exact (proj1 (proj2 (Address_prefers_IP (mkAddrSpec "example.com" [] 80)))
             eq_refl).
  - apply (proj1 (Address_prefers_IP
             (mkAddrSpec "example.com"
                [x20; x01; x0d; xb8; x00; x00; x00; x00;
                 x00; x00; x00; x00; x00; x00; x00; x01] 443))).
    discriminate.
Defined.

(** ** The errors of Parse *)

(** The two kinds differ by their text: only a short read starts with
    [failed to get]. *)
Lemma shortRead_not_contentError (e : error) :
  shortRead e -> ~ contentError e.
Proof.
  intros (what & io & ->) [(v & H) | [(c & H) | [H | H]]]; discriminate H.
Qed.

Lemma ReadFull_extend (r : Reader) (n : nat) (buf : list byte) (r' more : Reader) :
  ReadFull r n = (inr buf, r') ->
  ReadFull (r ++ more) n = (inr buf, r' ++ more).
Proof.
  intros H. apply ReadFull_ok in H. destruct H as [-> Hlen].
  apply ReadFull_ok. split; [symmetry; apply app_assoc | assumption].
Qed.

Lemma parseSocks4_extends (hd : Header) (r more : Reader) :
  extends more (parseSocks4 hd r) (parseSocks4 hd (r ++ more)).
Proof.
  unfold parseSocks4.
  destruct (ReadFull r (headPORTLen + IPv4len)) as [[e|buf] r'] eqn:E.
  - apply ReadFull_short in E. destruct E as (_ & -> & _).
    short_read "socks4 header port and ip".
  - rewrite (ReadFull_extend _ _ _ _ more E). same_result.
Qed.

Lemma parseSocks5_extends (hd : Header) (r more : Reader) :
  extends more (parseSocks5 hd r) (parseSocks5 hd (r ++ more)).
Proof.
  unfold parseSocks5.
  destruct (ReadFull r (headRSVLen + headATYPLen)) as [[e|tmp] r1] eqn:E.
  { apply ReadFull_short in E. destruct E as (_ & -> & _).
    short_read "header RSV and address type". }
  rewrite (ReadFull_extend _ _ _ _ more E). cbv zeta.
  destruct (Byte.eqb _ fqdnAddress).
  { destruct (ReadFull r1 1) as [[e|tmp1] r2] eqn:E1.
    { apply ReadFull_short in E1. destruct E1 as (_ & -> & _).
      short_read "header". }
    rewrite (ReadFull_extend _ _ _ _ more E1).
    destruct (ReadFull r2 _) as [[e|addr] r3] eqn:E2.
    { apply ReadFull_short in E2. destruct E2 as (_ & -> & _).
      short_read "header". }
    rewrite (ReadFull_extend _ _ _ _ more E2). same_result. }
  destruct (Byte.eqb _ ipv4Address).
  { destruct (ReadFull r1 _) as [[e|addr] r2] eqn:E1.
    { apply ReadFull_short in E1. destruct E1 as (_ & -> & _).
      short_read "header". }
    rewrite (ReadFull_extend _ _ _ _ more E1). same_result. }
  destruct (Byte.eqb _ ipv6Address).
  { destruct (ReadFull r1 _) as [[e|addr] r2] eqn:E1.
    { apply ReadFull_short in E1. destruct E1 as (_ & -> & _).
      short_read "header". }
    rewrite (ReadFull_extend _ _ _ _ more E1). same_result. }
  same_result.
Qed.

Lemma Parse_extends (r more : Reader) :
  extends more (Parse r) (Parse (r ++ more)).
Proof.
  destruct r as [|v [|c r]].
  - short_read "header version and command".
  - short_read "header version and command".
  - change ((v :: c :: r) ++ more) with (v :: c :: r ++ more).
    rewrite !Parse_two.
    destruct (negb (Byte.eqb v socks5Version) && negb (Byte.eqb v socks4Version));
      [same_result|].
    destruct (negb (Byte.eqb c ConnectCommand) && negb (Byte.eqb c BindCommand)
              && negb (Byte.eqb c AssociateCommand)); [same_result|].
    destruct (Byte.eqb v socks4Version && Byte.eqb c AssociateCommand);
      [same_result|].
    destruct (Byte.eqb v socks4Version); [apply parseSocks4_extends|].
    destruct (Byte.eqb v socks5Version); [apply parseSocks5_extends|].
    same_result.
Qed.

(** The failures of the two branches. *)
Lemma parseSocks4_failure (hd h : Header) (r rest : Reader) (e : error) :
  parseSocks4 hd r = (h, Some e, rest) -> shortRead e /\ rest = [] /\ h = hd.
Proof.
  unfold parseSocks4.
  destruct (ReadFull r (headPORTLen + IPv4len)) as [[io|buf] r'] eqn:E;
    [|discriminate].
  apply ReadFull_short in E. destruct E as (_ & -> & _).
  intros H. injection H as <- <- <-.
  split; [exists "socks4 header port and ip", io; reflexivity|].
  split; reflexivity.
Qed.

Lemma parseSocks5_failure (hd h : Header) (r rest : Reader) (e : error) :
  parseSocks5 hd r = (h, Some e, rest) ->
  shortRead e /\ rest = [] \/ e = unrecognizedAddrType.
Proof.
  unfold parseSocks5.
  destruct (ReadFull r (headRSVLen + headATYPLen)) as [[io|tmp] r1] eqn:E.
  { apply ReadFull_short in E. destruct E as (_ & -> & _).
    intros H. injection H as <- <- <-. left.
    split; [exists "header RSV and address type", io|]; reflexivity. }
  cbv zeta.
  destruct (Byte.eqb _ fqdnAddress).
  { destruct (ReadFull r1 1) as [[io|tmp1] r2] eqn:E1.
    { apply ReadFull_short in E1. destruct E1 as (_ & -> & _).
      intros H. injection H as <- <- <-. left.
      split; [exists "header", io|]; reflexivity. }
    destruct (ReadFull r2 _) as [[io|addr] r3] eqn:E2; [|discriminate].
    apply ReadFull_short in E2. destruct E2 as (_ & -> & _).
    intros H. injection H as <- <- <-. left.
    split; [exists "header", io|]; reflexivity. }
  destruct (Byte.eqb _ ipv4Address).
  { destruct (ReadFull r1 _) as [[io|addr] r2] eqn:E1; [|discriminate].
    apply ReadFull_short in E1. destruct E1 as (_ & -> & _).
    intros H. injection H as <- <- <-. left.
    split; [exists "header", io|]; reflexivity. }
  destruct (Byte.eqb _ ipv6Address).
  { destruct (ReadFull r1 _) as [[io|addr] r2] eqn:E1; [|discriminate].
    apply ReadFull_short in E1. destruct E1 as (_ & -> & _).
    intros H. injection H as <- <- <-. left.
    split; [exists "header", io|]; reflexivity. }
  intros H. injection H as <- <- <-. right. reflexivity.
Qed.

(** C2, as the spec states it, fails: the failures of Parse are not values
    of an error classification but errors built by [fmt.Errorf], which carry
    a message text and nothing else.  An unsupported version and a stream
    that ends after one byte are both reported this way. *)
Lemma Parse_failure_is_message_text :
  Parse [x06; x01] =
    (hdVerCmd x06 x01, Some (Errorf "unrecognized SOCKS version[6]"), [])
  /\ Parse [x05] =
    (zeroHeader,
     Some (Errorf "failed to get header version and command, unexpected EOF"), [])
  /\ ~ (forall r hd e rest,
         Parse r = (hd, Some e, rest) -> forall msg, e <> Errorf msg).
Proof.
  split; [reflexivity|]. split; [reflexivity|].
  intros H.
  apply (H [x06; x01] _ _ _ eq_refl "unrecognized SOCKS version[6]").
  reflexivity.
Qed.

(** The five errors of Parse. *)
Lemma Parse_failure_kinds (r : Reader) (hd : Header) (e : error) (rest : Reader) :
  Parse r = (hd, Some e, rest) ->
  shortRead e /\ rest = []
  \/ e = Errorf ("unrecognized SOCKS version[" ++ fmt_d (Version hd) ++ "]")
  \/ e = Errorf ("unrecognized command[" ++ fmt_d (Command hd) ++ "]")
  \/ e = Errorf "wrong version for command"
  \/ e = unrecognizedAddrType.
Proof.
  destruct r as [|v [|c r0]].
  - intros H. injection H as <- <- <-. left.
    split; [exists "header version and command", EOF|]; reflexivity.
  - intros H. injection H as <- <- <-. left.
    split; [exists "header version and command", ErrUnexpectedEOF|]; reflexivity.
  - rewrite Parse_two.
    destruct (negb (Byte.eqb v socks5Version) && negb (Byte.eqb v socks4Version)).
    { intros H. injection H as <- <- <-. right; left. reflexivity. }
    destruct (negb (Byte.eqb c ConnectCommand) && negb (Byte.eqb c BindCommand)
              && negb (Byte.eqb c AssociateCommand)).
    { intros H. injection H as <- <- <-. right; right; left. reflexivity. }
    destruct (Byte.eqb v socks4Version && Byte.eqb c AssociateCommand).
    { intros H. injection H as <- <- <-. right; right; right; left. reflexivity. }
    destruct (Byte.eqb v socks4Version).
    { intros H. apply parseSocks4_failure in H. left.
      split; apply H. }
    destruct (Byte.eqb v socks5Version); [|discriminate].
    intros H. apply parseSocks5_failure in H.
    destruct H as [H | H]; [left; exact H | do 4 right; exact H].
Qed.

(** The error of a short read is returned with the stream left empty. *)
Lemma Parse_shortRead_empties (r : Reader) (h : Header) (e : error) (rest : Reader) :
  Parse r = (h, Some e, rest) -> shortRead e -> rest = [].
Proof.
  intros H Hs.
  destruct (Parse_failure_kinds r h e rest H) as [[_ Hr] | [Hc | [Hc | [Hc | Hc]]]];
    [exact Hr | exfalso ..];
    apply (shortRead_not_contentError e Hs); unfold contentError.
  - left. eexists. exact Hc.
  - right; left. eexists. exact Hc.
  - right; right; left. exact Hc.
  - right; right; right. exact Hc.
Qed.

(** C2, amended. The reader is a stream that delivers its bytes and then
    ends, so that a read fails only by the end of the stream.  Every failure
    of Parse is then one of five errors: the error of a short read, whose
    text is [failed to get <what>, <EOF or unexpected EOF>] and which leaves
    nothing in the stream; the three errors of the version and command
    checks, which are texts too ([unrecognized SOCKS version[v]],
    [unrecognized command[c]], [wrong version for command]); and the error
    variable [unrecognizedAddrType].  The stream ends before a required field
    is fully read exactly when bytes appended to it would change what Parse
    returns: on every such stream Parse returns the error of a short read,
    and it returns that error on no other stream.  In particular a stream
    that further bytes complete to a header Parse decodes fails with the
    error of a short read.  That error differs from every error of the
    checks on content, by its text. *)
Theorem Parse_failures (r : Reader) :
  (forall hd e rest,
      Parse r = (hd, Some e, rest) ->
      shortRead e /\ rest = []
      \/ e = Errorf ("unrecognized SOCKS version[" ++ fmt_d (Version hd) ++ "]")
      \/ e = Errorf ("unrecognized command[" ++ fmt_d (Command hd) ++ "]")
      \/ e = Errorf "wrong version for command"
      \/ e = unrecognizedAddrType)
  /\ (forall more h x rest,
      Parse r = (h, x, rest) ->
      Parse (r ++ more) <> (h, x, rest ++ more) ->
      exists e, x = Some e /\ shortRead e /\ rest = [])
  /\ (forall more h e rest,
      Parse r = (h, Some e, rest) -> shortRead e -> more <> [] ->
      Parse (r ++ more) <> (h, Some e, rest ++ more))
  /\ (forall more h,
      more <> [] -> Parse (r ++ more) = (h, None, []) ->
      exists hd e, Parse r = (hd, Some e, []) /\ shortRead e)
  /\ (forall e, shortRead e -> ~ contentError e).
Proof.
  split; [|split; [|split; [|split]]].
  - apply Parse_failure_kinds.
  - intros more h x rest H Hne.
    destruct (Parse_extends r more)
      as [(hd & e & Hr & He) | (hd & x' & rest' & Hr & Hr')].
    + rewrite H in Hr. injection Hr as -> -> ->.
      exists e. repeat split. assumption.
    + rewrite H in Hr. injection Hr as <- <- <-. contradiction.
  - intros more h e rest H Hs Hmore Heq.
    rewrite (Parse_shortRead_empties r h e rest H Hs) in Heq.
    apply Parse_shortRead_empties in Heq; [|assumption].
    simpl in Heq. contradiction.
  - intros more h Hmore H.
    destruct (Parse_extends r more)
      as [(hd & e & Hr & He) | (hd & x & rest & Hr & Hr')].
    + exists hd, e. split; assumption.
    + rewrite H in Hr'. injection Hr' as _ _ Hnil.
      symmetry in Hnil. apply app_eq_nil in Hnil.
      destruct Hnil as [_ Hnil]. contradiction.
  - apply shortRead_not_contentError.
Qed.

Lemma Parse_failures_witness :
  (shortRead (Errorf "failed to get header, unexpected EOF") /\ @nil byte = []
   \/ Errorf "failed to get header, unexpected EOF"
      = Errorf ("unrecognized SOCKS version[" ++ fmt_d x05 ++ "]")
   \/ Errorf "failed to get header, unexpected EOF"
      = Errorf ("unrecognized command[" ++ fmt_d x01 ++ "]")
   \/ Errorf "failed to get header, unexpected EOF" = Errorf "wrong version for command"
   \/ Errorf "failed to get header, unexpected EOF" = unrecognizedAddrType)
  /\ (exists e,
        Some (Errorf "failed to get header version and command, unexpected EOF") = Some e
        /\ shortRead e /\ @nil byte = [])
  /\ Parse ([x05] ++ [x01])
     <> (zeroHeader,
         Some (Errorf "failed to get header version and command, unexpected EOF"),
         [] ++ [x01])
  /\ (exists hd e,
        Parse [x05; x01; x00; x01; x7f; x00] = (hd, Some e, []) /\ shortRead e)
  /\ ~ contentError (Errorf "failed to get header, unexpected EOF").
Proof.
  split; [|split; [|split; [|split]]].
  - exact (proj1 (Parse_failures [x05; x01; x00; x01; x7f; x00])
             (mkHeader x05 x01 x00 zeroAddrSpec x01)
             (Errorf "failed to get header, unexpected EOF") [] eq_refl).
  - apply (proj1 (proj2 (Parse_failures [x06])) [x01] zeroHeader
             (Some (Errorf "failed to get header version and command, unexpected EOF"))
             []).
    + reflexivity.
    + intros H. discriminate H.
  - apply (proj1 (proj2 (proj2 (Parse_failures [x05]))) [x01] zeroHeader
             (Errorf "failed to get header version and command, unexpected EOF") []).
    + reflexivity.
    + exists "header version and command", ErrUnexpectedEOF. reflexivity.
    + discriminate.
  - apply (proj1 (proj2 (proj2 (proj2 (Parse_failures [x05; x01; x00; x01; x7f; x00]))))
             [x00; x01; x1f; x90]
             (mkHeader x05 x01 x00 (mkAddrSpec "" [x7f; x00; x00; x01] 8080) x01));
      [discriminate | reflexivity].
  - apply (proj2 (proj2 (proj2 (proj2 (Parse_failures []))))).
    exists "header", ErrUnexpectedEOF. reflexivity.
Defined.

(* ------------------------------------------------------------------ *)
(** * Further properties of the codec *)

(** ** Ports beyond 16 bits *)

Lemma breakPort_mod (p : Z) : breakPort (p mod 65536) = breakPort p.
Proof.
  unfold breakPort.
  rewrite !Z.shiftr_div_pow2 by lia. change (2 ^ 8) with 256.
  f_equal.
  - rewrite <- (uint8_mod (p mod 65536 / 256)), <- (uint8_mod (p / 256)).
    f_equal. Z.div_mod_to_equations. lia.
  - rewrite <- (uint8_mod (p mod 65536)), <- (uint8_mod p).
    f_equal. Z.div_mod_to_equations. lia.
Qed.

Lemma buildPort_breakPort_small (p : Z) :
  0 <= p <= 65535 ->
  buildPort (fst (breakPort p)) (snd (breakPort p)) = p.
Proof.
  intros Hp. rewrite buildPort_value. unfold breakPort; simpl fst; simpl snd.
  rewrite !int_uint8, Z.shiftr_div_pow2 by lia. change (2 ^ 8) with 256.
  Z.div_mod_to_equations. lia.
Qed.

Lemma buildPort_breakPort_mod (p : Z) :
  buildPort (fst (breakPort p)) (snd (breakPort p)) = p mod 65536.
Proof.
  rewrite <- breakPort_mod.
  apply buildPort_breakPort_small.
  pose proof (Z.mod_pos_bound p 65536 ltac:(lia)). lia.
Qed.

Lemma buildPort_inj (hi lo hi' lo' : byte) :
  buildPort hi lo = buildPort hi' lo' -> hi = hi' /\ lo = lo'.
Proof.
  intros H. apply (f_equal breakPort) in H.
  rewrite !breakPort_buildPort in H. injection H as -> ->.
  split; reflexivity.
Qed.

(** X7. Whatever int a header holds as its port, the two bytes the encoder
    emits decode to that port modulo 65536 (also for a negative port), and
    two ports that differ by a multiple of 65536 are emitted alike; two
    different byte pairs never decode to the same port. *)
Theorem port_bytes_modulo :
  (forall p : Z,
      buildPort (fst (breakPort p)) (snd (breakPort p)) = p mod 65536)
  /\ (forall p k : Z, breakPort (p + k * 65536) = breakPort p)
  /\ (forall hi lo hi' lo' : byte,
      buildPort hi lo = buildPort hi' lo' -> hi = hi' /\ lo = lo').
Proof.
  split; [apply buildPort_breakPort_mod|]. split; [|apply buildPort_inj].
  intros p k. rewrite <- (breakPort_mod (p + k * 65536)), Z.mod_add by lia.
  apply breakPort_mod.
Qed.

Lemma port_bytes_modulo_witness :
  buildPort x00 x50 = buildPort x00 x50 /\ x00 = x00 /\ x50 = x50.
Proof.
  split; [reflexivity|].
  exact (proj2 (proj2 port_bytes_modulo) x00 x50 x00 x50 eq_refl).
Defined.

(** ** Well-formed headers *)

Ltac bools :=
  repeat match goal with
         | H : _ && _ = true |- _ => apply andb_true_iff in H; destruct H
         | H : Byte.eqb _ _ = true |- _ => apply byte_eqb_eq in H
         | H : String.eqb _ _ = true |- _ => apply String.eqb_eq in H
         | H : Nat.eqb _ _ = true |- _ => apply Nat.eqb_eq in H
         | H : Nat.leb _ _ = true |- _ => apply Nat.leb_le in H
         end.

Lemma portInRange_iff (p : Z) : portInRange p = true <-> 0 <= p <= 65535.
Proof.
  unfold portInRange. rewrite andb_true_iff, !Z.leb_le. reflexivity.
Qed.

Lemma portInRange_buildPort (hi lo : byte) : portInRange (buildPort hi lo) = true.
Proof. apply portInRange_iff, buildPort_range. Qed.

(** The four shapes of a well-formed header. *)
Lemma wellFormed_cases (h : Header) :
  wellFormed h = true ->
  exists c rsv fqdn ip p,
    0 <= p <= 65535
    /\ ((h = mkHeader socks4Version c x00 (mkAddrSpec "" ip p) x00
         /\ (c = ConnectCommand \/ c = BindCommand)
         /\ List.length ip = IPv4len)
        \/ (h = mkHeader socks5Version c rsv (mkAddrSpec fqdn [] p) fqdnAddress
            /\ supportedCommand c /\ (String.length fqdn <= 255)%nat)
        \/ (h = mkHeader socks5Version c rsv (mkAddrSpec "" ip p) ipv4Address
            /\ supportedCommand c /\ List.length ip = IPv4len)
        \/ (h = mkHeader socks5Version c rsv (mkAddrSpec "" ip p) ipv6Address
            /\ supportedCommand c /\ List.length ip = IPv6len)).
Proof.
  destruct h as [v c rsv [fqdn ip p] t].
  unfold wellFormed. cbn [Version Command Reserved Address addrType FQDN IP Port].
  intros H. exists c, rsv, fqdn, ip, p.
  destruct (Byte.eqb v socks4Version) eqn:E4.
  { bools. subst. split; [apply portInRange_iff; assumption|]. left.
    split; [reflexivity|]. split; [|assumption].
    match goal with
    | Hc : _ || _ = true |- _ => apply orb_true_iff in Hc; destruct Hc
    end; bools; subst; [left | right]; reflexivity. }
  destruct (Byte.eqb v socks5Version) eqn:E5; [|discriminate H].
  bools. subst.
  split; [apply portInRange_iff; assumption|]. right.
  assert (Hc : supportedCommand c).
  { match goal with
    | Hc : _ || _ = true |- _ =>
        apply orb_true_iff in Hc; destruct Hc as [Hc | Hc];
        [apply orb_true_iff in Hc; destruct Hc|]
    end; bools; subst;
      [left | right; left | right; right]; reflexivity. }
  destruct (Byte.eqb t fqdnAddress) eqn:T3.
  { bools. subst. left.
    match goal with
    | Hl : List.length ip = 0%nat |- _ => apply length_zero_iff_nil in Hl; subst
    end.
    repeat split; assumption. }
  destruct (Byte.eqb t ipv4Address) eqn:T1.
  { bools. subst. right; left. repeat split; assumption. }
  destruct (Byte.eqb t ipv6Address) eqn:T4; [|discriminate].
  bools. subst. right; right. repeat split; assumption.
Qed.

(** What the two branches return on a complete address. *)
Lemma parseSocks4_complete (hd : Header) (hi lo : byte) (ip : list byte) (rest : Reader) :
  List.length ip = IPv4len ->
  parseSocks4 hd (hi :: lo :: ip ++ rest) =
    (set_IP ip (set_Port (buildPort hi lo) hd), None, rest).
Proof.
  intros Hlen.
  destruct ip as [|a [|b [|c [|d [|x ip]]]]]; try discriminate Hlen.
  reflexivity.
Qed.

Lemma parseSocks5_ip_complete (hd : Header) (rsv t : byte) (ip : list byte)
      (hi lo : byte) (rest : Reader) :
  t = ipv4Address /\ List.length ip = IPv4len
  \/ t = ipv6Address /\ List.length ip = IPv6len ->
  parseSocks5 hd (rsv :: t :: ip ++ hi :: lo :: rest) =
    (set_Port (buildPort hi lo) (set_IP ip (set_addrType t (set_Reserved rsv hd))),
     None, rest).
Proof.
  intros Ht. rewrite parseSocks5_two. cbv zeta.
  replace (ip ++ hi :: lo :: rest) with ((ip ++ [hi; lo]) ++ rest)
    by (rewrite <- app_assoc; reflexivity).
  destruct Ht as [[-> Hlen] | [-> Hlen]].
  - change (Byte.eqb ipv4Address fqdnAddress) with false.
    change (Byte.eqb ipv4Address ipv4Address) with true. cbv iota.
    replace (IPv4len + 2)%nat with (List.length (ip ++ [hi; lo]))
      by (rewrite length_app, Hlen; reflexivity).
    rewrite ReadFull_app. rewrite <- Hlen.
    destruct (idx_app_at ip hi lo) as [-> ->].
    rewrite firstn_app_exact. reflexivity.
  - change (Byte.eqb ipv6Address fqdnAddress) with false.
    change (Byte.eqb ipv6Address ipv4Address) with false.
    change (Byte.eqb ipv6Address ipv6Address) with true. cbv iota.
    replace (IPv6len + 2)%nat with (List.length (ip ++ [hi; lo]))
      by (rewrite length_app, Hlen; reflexivity).
    rewrite ReadFull_app. rewrite <- Hlen.
    destruct (idx_app_at ip hi lo) as [-> ->].
    rewrite firstn_app_exact. reflexivity.
Qed.

Lemma Parse_socks4 (c : byte) (r : Reader) :
  c = ConnectCommand \/ c = BindCommand ->
  Parse (socks4Version :: c :: r) = parseSocks4 (hdVerCmd socks4Version c) r.
Proof.
  intros [-> | ->]; reflexivity.
Qed.

(** Decoding the bytes of a well-formed header gives the header back. *)
Lemma Parse_Bytes_wellFormed (h : Header) (rest : Reader) :
  wellFormed h = true -> Parse (Bytes h ++ rest) = (h, None, rest).
Proof.
  intros H. apply wellFormed_cases in H.
  destruct H as (c & rsv & fqdn & ip & p & Hp & H).
  destruct H as [(-> & Hc & Hlen) | [(-> & Hc & Hlen) | [(-> & Hc & Hlen) | (-> & Hc & Hlen)]]].
  - rewrite Bytes_socks4 by reflexivity. fields.
    rewrite <- app_assoc.
    change ([socks4Version; c; fst (breakPort p); snd (breakPort p)] ++ ip ++ rest)
      with (socks4Version :: c :: fst (breakPort p) :: snd (breakPort p) :: ip ++ rest).
    rewrite (Parse_socks4 c _ Hc), (parseSocks4_complete _ _ _ _ _ Hlen).
    rewrite (buildPort_breakPort_small p Hp). reflexivity.
  - rewrite Bytes_socks5 by reflexivity. fields.
    change (Byte.eqb fqdnAddress fqdnAddress) with true. cbv iota.
    rewrite <- !app_assoc.
    change ([socks5Version; c; rsv; fqdnAddress] ++
            (uint8 (Z.of_nat (String.length fqdn)) :: list_byte_of_string fqdn) ++
            [fst (breakPort p); snd (breakPort p)] ++ rest)
      with (x05 :: c :: rsv :: x03 :: uint8 (Z.of_nat (String.length fqdn)) ::
            list_byte_of_string fqdn ++ fst (breakPort p) :: snd (breakPort p) :: rest).
    rewrite (Parse_domain_ok c rsv _ (list_byte_of_string fqdn) _ _ rest Hc).
    + rewrite string_of_list_byte_of_string, (buildPort_breakPort_small p Hp).
      reflexivity.
    + rewrite length_list_byte_of_string, int_uint8, Z.mod_small by lia.
      rewrite Nat2Z.id. reflexivity.
  - rewrite Bytes_socks5 by reflexivity. fields.
    change (Byte.eqb ipv4Address fqdnAddress) with false.
    change (Byte.eqb ipv4Address ipv4Address) with true. cbv iota.
    rewrite (To4_length4 _ Hlen), <- !app_assoc.
    change ([socks5Version; c; rsv; ipv4Address] ++
            ip ++ [fst (breakPort p); snd (breakPort p)] ++ rest)
      with (socks5Version :: c :: rsv :: ipv4Address ::
            ip ++ fst (breakPort p) :: snd (breakPort p) :: rest).
    rewrite (Parse_socks5 c _ Hc), parseSocks5_ip_complete by (left; split; [reflexivity|assumption]).
    rewrite (buildPort_breakPort_small p Hp). reflexivity.
  - rewrite Bytes_socks5 by reflexivity. fields.
    change (Byte.eqb ipv6Address fqdnAddress) with false.
    change (Byte.eqb ipv6Address ipv4Address) with false.
    change (Byte.eqb ipv6Address ipv6Address) with true. cbv iota.
    rewrite (To16_length16 _ Hlen), <- !app_assoc.
    change ([socks5Version; c; rsv; ipv6Address] ++
            ip ++ [fst (breakPort p); snd (breakPort p)] ++ rest)
      with (socks5Version :: c :: rsv :: ipv6Address ::
            ip ++ fst (breakPort p) :: snd (breakPort p) :: rest).
    rewrite (Parse_socks5 c _ Hc), parseSocks5_ip_complete by (right; split; [reflexivity|assumption]).
    rewrite (buildPort_breakPort_small p Hp). reflexivity.
Qed.

(** Every header Parse returns without error is well formed. *)
Lemma Parse_ok_wellFormed (r : Reader) (h : Header) (rest : Reader) :
  Parse r = (h, None, rest) -> wellFormed h = true.
Proof.
  intros H.
  apply Parse_ok in H. destruct H as (c & r' & [(-> & Hc & H) | (-> & Hc & H)]).
  - apply parseSocks4_ok in H.
    destruct H as (hi & lo & a & b & c' & d & -> & ->).
    unfold wellFormed. fields. rewrite portInRange_buildPort.
    destruct Hc as [-> | ->]; reflexivity.
  - apply parseSocks5_ok in H.
    destruct H as (rsv & t & addr & hi & lo & H). cbv zeta in H.
    destruct H as [(-> & -> & Hlen & ->) | (Ht & -> & ->)];
      unfold wellFormed; fields; rewrite portInRange_buildPort.
    + rewrite length_string_of_list_byte.
      apply Nat.leb_le in Hlen. rewrite Hlen.
      destruct Hc as [-> | [-> | ->]]; reflexivity.
    + destruct Ht as [[-> Hlen] | [-> Hlen]]; rewrite Hlen;
        destruct Hc as [-> | [-> | ->]]; reflexivity.
Qed.

(** The stream a successful Parse read is the bytes of its header. *)
Lemma Parse_ok_consumed (r : Reader) (h : Header) (rest : Reader) :
  Parse r = (h, None, rest) -> r = Bytes h ++ rest.
Proof.
  intros H.
  apply Parse_ok in H. destruct H as (c & r' & [(-> & Hc & H) | (-> & Hc & H)]).
  - apply parseSocks4_ok in H.
    destruct H as (hi & lo & a & b & c' & d & -> & ->).
    rewrite Bytes_socks4 by reflexivity.
    fields. rewrite breakPort_buildPort. reflexivity.
  - apply parseSocks5_ok in H.
    destruct H as (rsv & t & addr & hi & lo & H). cbv zeta in H.
    destruct H as [(-> & -> & Hlen & ->) | (Ht & -> & ->)];
      rewrite Bytes_socks5 by reflexivity; fields; rewrite breakPort_buildPort.
    + rewrite length_string_of_list_byte, list_byte_of_string_of_list_byte.
      change (Byte.eqb fqdnAddress fqdnAddress) with true. cbv iota.
      rewrite <- !app_assoc. reflexivity.
    + destruct Ht as [[-> Hlen] | [-> Hlen]].
      * change (Byte.eqb ipv4Address fqdnAddress) with false.
        change (Byte.eqb ipv4Address ipv4Address) with true. cbv iota.
        rewrite (To4_length4 _ Hlen), <- !app_assoc. reflexivity.
      * change (Byte.eqb ipv6Address fqdnAddress) with false.
        change (Byte.eqb ipv6Address ipv4Address) with false.
        change (Byte.eqb ipv6Address ipv6Address) with true. cbv iota.
        rewrite (To16_length16 _ Hlen), <- !app_assoc. reflexivity.
Qed.

Lemma length_Bytes_wellFormed (h : Header) :
  wellFormed h = true ->
  List.length (Bytes h) = wireLength h /\ (7 <= wireLength h <= 262)%nat.
Proof.
  intros H. apply wellFormed_cases in H.
  destruct H as (c & rsv & fqdn & ip & p & Hp & H).
  destruct H as [(-> & Hc & Hlen) | [(-> & Hc & Hlen) | [(-> & Hc & Hlen) | (-> & Hc & Hlen)]]];
    unfold IPv4len, IPv6len in Hlen.
  - rewrite Bytes_socks4 by reflexivity. fields.
    rewrite length_app, Hlen. unfold wireLength. simpl. lia.
  - rewrite Bytes_socks5 by reflexivity. fields.
    change (Byte.eqb fqdnAddress fqdnAddress) with true. cbv iota.
    rewrite !length_app. cbn [List.length].
    rewrite length_list_byte_of_string.
    unfold wireLength. fields.
    change (Byte.eqb socks5Version socks4Version) with false.
    change (Byte.eqb fqdnAddress fqdnAddress) with true. cbv iota. lia.
  - rewrite Bytes_socks5 by reflexivity. fields.
    change (Byte.eqb ipv4Address fqdnAddress) with false.
    change (Byte.eqb ipv4Address ipv4Address) with true. cbv iota.
    rewrite (To4_length4 _ Hlen), !length_app, Hlen. cbn [List.length].
    unfold wireLength. simpl. lia.
  - rewrite Bytes_socks5 by reflexivity. fields.
    change (Byte.eqb ipv6Address fqdnAddress) with false.
    change (Byte.eqb ipv6Address ipv4Address) with false.
    change (Byte.eqb ipv6Address ipv6Address) with true. cbv iota.
    rewrite (To16_length16 _ Hlen), !length_app, Hlen. cbn [List.length].
    unfold wireLength. simpl. lia.
Qed.

(** ** Encoding, then decoding *)

(** X1. A header is well formed exactly when decoding its bytes, whatever
    bytes follow them, gives the header back and leaves the reader at the
    bytes that follow.  Nothing else than the header's own fields enters the
    test: any reserved byte, any domain bytes, any address. *)
Theorem Bytes_then_Parse (h : Header) (rest : Reader) :
  wellFormed h = true <-> Parse (Bytes h ++ rest) = (h, None, rest).
Proof.
  split.
  - apply Parse_Bytes_wellFormed.
  - apply Parse_ok_wellFormed.
Qed.

Lemma Bytes_then_Parse_witness :
  Parse (Bytes (mkHeader x05 x03 x07 (mkAddrSpec "example.com" [] 8080) x03)
         ++ [x2a; x2b])
  = (mkHeader x05 x03 x07 (mkAddrSpec "example.com" [] 8080) x03, None, [x2a; x2b]).
Proof.
  apply (proj1 (Bytes_then_Parse
                  (mkHeader x05 x03 x07 (mkAddrSpec "example.com" [] 8080) x03)
                  [x2a; x2b])).
  reflexivity.
Defined.

(** X2. The header of a successful Parse has version 4 or 5 and command 1, 2
    or 3.  With version 4 the command is not 3, the reserved byte and the
    address type are 0, the domain is empty and the IP has 4 bytes.  With
    version 5 the address type is 1, 3 or 4 and agrees with the address:
    type 3 holds no IP and a domain of at most 255 bytes, types 1 and 4 hold
    no domain and an IP of 4 and of 16 bytes. *)
Theorem Parse_header_invariant (r : Reader) (h : Header) (rest : Reader) :
  Parse r = (h, None, rest) ->
  (Version h = socks4Version \/ Version h = socks5Version)
  /\ supportedCommand (Command h)
  /\ (Version h = socks4Version ->
        Command h <> AssociateCommand /\ Reserved h = x00 /\ addrType h = x00
        /\ FQDN (Address h) = "" /\ List.length (IP (Address h)) = 4%nat)
  /\ (Version h = socks5Version ->
        (addrType h = fqdnAddress
         /\ IP (Address h) = [] /\ (String.length (FQDN (Address h)) <= 255)%nat)
        \/ (addrType h = ipv4Address
            /\ FQDN (Address h) = "" /\ List.length (IP (Address h)) = 4%nat)
        \/ (addrType h = ipv6Address
            /\ FQDN (Address h) = "" /\ List.length (IP (Address h)) = 16%nat)).
Proof.
  intros H. apply Parse_ok_wellFormed, wellFormed_cases in H.
  destruct H as (c & rsv & fqdn & ip & p & Hp & H).
  destruct H as [(-> & Hc & Hlen) | [(-> & Hc & Hlen) | [(-> & Hc & Hlen) | (-> & Hc & Hlen)]]];
    fields.
  - split; [left; reflexivity|].
    split; [destruct Hc as [-> | ->]; [left | right; left]; reflexivity|].
    split; [|discriminate].
    intros _. split; [destruct Hc as [-> | ->]; discriminate|].
    repeat split. assumption.
  - split; [right; reflexivity|]. split; [assumption|].
    split; [discriminate|]. intros _. left. repeat split. assumption.
  - split; [right; reflexivity|]. split; [assumption|].
    split; [discriminate|]. intros _. right; left. repeat split. assumption.
  - split; [right; reflexivity|]. split; [assumption|].
    split; [discriminate|]. intros _. right; right. repeat split. assumption.
Qed.

Lemma Parse_header_invariant_witness :
  (x04 = socks4Version \/ x04 = socks5Version)
  /\ supportedCommand x02
  /\ (x04 = socks4Version ->
        x02 <> AssociateCommand /\ x00 = x00 /\ x00 = x00
        /\ "" = "" /\ List.length [x0a; x00; x00; x01] = 4%nat)
  /\ (x04 = socks5Version ->
        (x00 = fqdnAddress
         /\ [x0a; x00; x00; x01] = [] /\ (String.length "" <= 255)%nat)
        \/ (x00 = ipv4Address
            /\ "" = "" /\ List.length [x0a; x00; x00; x01] = 4%nat)
        \/ (x00 = ipv6Address
            /\ "" = "" /\ List.length [x0a; x00; x00; x01] = 16%nat)).
Proof.
  exact (Parse_header_invariant
           [x04; x02; x00; x50; x0a; x00; x00; x01; x2a]
           (mkHeader x04 x02 x00 (mkAddrSpec "" [x0a; x00; x00; x01] 80) x00)
           [x2a] eq_refl).
Defined.

(** X3. The wire form is self-delimiting: when the bytes of two well-formed
    headers, each followed by any bytes, make the same stream, the headers
    are the same and so are the bytes that follow.  In particular two
    different well-formed headers never have the same bytes, and the bytes
    of one are never a proper prefix of the bytes of another. *)
Theorem Bytes_self_delimiting (h1 h2 : Header) (r1 r2 : list byte) :
  wellFormed h1 = true -> wellFormed h2 = true ->
  Bytes h1 ++ r1 = Bytes h2 ++ r2 ->
  h1 = h2 /\ r1 = r2.
Proof.
  intros H1 H2 E.
  pose proof (Parse_Bytes_wellFormed h1 r1 H1) as P1.
  pose proof (Parse_Bytes_wellFormed h2 r2 H2) as P2.
  rewrite E, P2 in P1. injection P1 as -> ->. split; reflexivity.
Qed.

Lemma Bytes_self_delimiting_witness :
  mkHeader x04 x01 x00 (mkAddrSpec "" [x0a; x00; x00; x01] 80) x00
  = mkHeader x04 x01 x00 (mkAddrSpec "" [x0a; x00; x00; x01] 80) x00
  /\ [x2a] = [x2a].
Proof.
  apply (Bytes_self_delimiting
           (mkHeader x04 x01 x00 (mkAddrSpec "" [x0a; x00; x00; x01] 80) x00)
           (mkHeader x04 x01 x00 (mkAddrSpec "" [x0a; x00; x00; x01] 80) x00)
           [x2a] [x2a]); reflexivity.
Defined.

(** ** How much Parse reads *)

(** X4. A successful Parse has read exactly the wire length of its header: 8
    bytes for version 4 (the user-id that may follow is left in the stream),
    10 for a version-5 IPv4 address, 22 for IPv6 and 7 plus the length of the
    domain for a domain; always between 7 and 262 bytes. *)
Theorem Parse_reads_wire_length (r : Reader) (h : Header) (rest : Reader) :
  Parse r = (h, None, rest) ->
  List.length r = (wireLength h + List.length rest)%nat
  /\ (7 <= wireLength h <= 262)%nat
  /\ (Version h = socks4Version -> wireLength h = 8%nat)
  /\ (Version h = socks5Version -> addrType h = ipv4Address -> wireLength h = 10%nat)
  /\ (Version h = socks5Version -> addrType h = ipv6Address -> wireLength h = 22%nat)
  /\ (Version h = socks5Version -> addrType h = fqdnAddress ->
      wireLength h = (7 + String.length (FQDN (Address h)))%nat).
Proof.
  intros H. pose proof (Parse_ok_wellFormed _ _ _ H) as Hwf.
  apply Parse_ok_consumed in H.
  destruct (length_Bytes_wellFormed h Hwf) as [Hlen Hb].
  split; [rewrite H at 1; rewrite length_app, Hlen; reflexivity|].
  split; [assumption|].
  unfold wireLength.
  repeat split; intros Hv; rewrite Hv; try reflexivity; intros Ht; rewrite Ht; reflexivity.
Qed.

Lemma Parse_reads_wire_length_witness :
  List.length [x04; x02; x00; x50; x0a; x00; x00; x01; x75; x00]
  = (wireLength (mkHeader x04 x02 x00 (mkAddrSpec "" [x0a; x00; x00; x01] 80) x00)
     + List.length [x75; x00])%nat
  /\ wireLength (mkHeader x04 x02 x00 (mkAddrSpec "" [x0a; x00; x00; x01] 80) x00) = 8%nat.
Proof.
  pose proof (Parse_reads_wire_length
                [x04; x02; x00; x50; x0a; x00; x00; x01; x75; x00]
                (mkHeader x04 x02 x00 (mkAddrSpec "" [x0a; x00; x00; x01] 80) x00)
                [x75; x00] eq_refl) as (H1 & _ & H4 & _).
  split; [exact H1 | exact (H4 eq_refl)].
Defined.

(** ** Bytes that follow the header *)

(** X5. What follows the header in the stream has no effect on a successful
    Parse, nor on one that fails on the content: with more bytes at the end
    of the stream the header and the error are the same and the reader is
    left with these bytes too.  Only a short read can turn into another
    result when the stream goes on. *)
Theorem Parse_ignores_what_follows (r more : Reader) (h : Header) (rest : Reader) :
  (Parse r = (h, None, rest) -> Parse (r ++ more) = (h, None, rest ++ more))
  /\ (forall e, Parse r = (h, Some e, rest) -> contentError e ->
      Parse (r ++ more) = (h, Some e, rest ++ more)).
Proof.
  split.
  - intros H.
    destruct (Parse_extends r more)
      as [(hd & e & Hr & He) | (hd & x & rest' & Hr & Hr')].
    + rewrite H in Hr. discriminate Hr.
    + rewrite H in Hr. injection Hr as <- <- <-. exact Hr'.
  - intros e H Hc.
    destruct (Parse_extends r more)
      as [(hd & e' & Hr & He) | (hd & x & rest' & Hr & Hr')].
    + rewrite H in Hr. injection Hr as <- <- _.
      exfalso. exact (shortRead_not_contentError e He Hc).
    + rewrite H in Hr. injection Hr as <- <- <-. exact Hr'.
Qed.

Lemma Parse_ignores_what_follows_witness :
  Parse ([x04; x01; x00; x50; x0a; x00; x00; x01] ++ [x75; x00]) =
    (mkHeader x04 x01 x00 (mkAddrSpec "" [x0a; x00; x00; x01] 80) x00, None,
     [] ++ [x75; x00])
  /\ Parse ([x05; x09] ++ [x00; x01]) =
    (hdVerCmd x05 x09, Some (Errorf "unrecognized command[9]"), [] ++ [x00; x01]).
Proof.
  split.
  - apply (proj1 (Parse_ignores_what_follows
                    [x04; x01; x00; x50; x0a; x00; x00; x01] [x75; x00]
                    (mkHeader x04 x01 x00 (mkAddrSpec "" [x0a; x00; x00; x01] 80) x00)
                    [])).
    reflexivity.
  - apply (proj2 (Parse_ignores_what_follows
                    [x05; x09] [x00; x01] (hdVerCmd x05 x09) [])).
    + reflexivity.
    + right; left. exists x09. reflexivity.
Defined.

(** ** The header of a failed Parse *)

Lemma parseSocks5_failure_header (hd h : Header) (r rest : Reader) (e : error) :
  parseSocks5 hd r = (h, Some e, rest) ->
  Version h = Version hd /\ Command h = Command hd /\ Address h = Address hd.
Proof.
  unfold parseSocks5.
  destruct (ReadFull r (headRSVLen + headATYPLen)) as [[io|tmp] r1].
  { intros H. injection H as <- _ _. repeat split. }
  cbv zeta.
  destruct (Byte.eqb _ fqdnAddress).
  { destruct (ReadFull r1 1) as [[io|tmp1] r2].
    { intros H. injection H as <- _ _. repeat split. }
    destruct (ReadFull r2 _) as [[io|addr] r3]; [|discriminate].
    intros H. injection H as <- _ _. repeat split. }
  destruct (Byte.eqb _ ipv4Address).
  { destruct (ReadFull r1 _) as [[io|addr] r2]; [|discriminate].
    intros H. injection H as <- _ _. repeat split. }
  destruct (Byte.eqb _ ipv6Address).
  { destruct (ReadFull r1 _) as [[io|addr] r2]; [|discriminate].
    intros H. injection H as <- _ _. repeat split. }
  intros H. injection H as <- _ _. repeat split.
Qed.

(** X6. A failed Parse still returns a header, filled as far as the bytes
    were read: the zero header when the stream has fewer than two bytes (the
    error then tells an empty stream, [EOF], from a stream of one byte,
    [unexpected EOF]), and otherwise the version and command bytes of the
    stream; its address is never set (no domain, no IP, port 0). *)
Theorem Parse_failure_header (r : Reader) (h : Header) (e : error) (rest : Reader) :
  Parse r = (h, Some e, rest) ->
  Address h = zeroAddrSpec
  /\ (forall v c r', r = v :: c :: r' -> Version h = v /\ Command h = c)
  /\ ((List.length r < 2)%nat ->
      h = zeroHeader /\ rest = []
      /\ e = Errorf ("failed to get header version and command, " ++
                     match r with [] => "EOF" | _ => "unexpected EOF" end)).
Proof.
  destruct r as [|v [|c r0]].
  - intros H. injection H as <- <- <-.
    repeat split; discriminate.
  - intros H. injection H as <- <- <-.
    repeat split; discriminate.
  - rewrite Parse_two. intros H.
    assert (Hh : Address h = zeroAddrSpec /\ Version h = v /\ Command h = c).
    { destruct (negb (Byte.eqb v socks5Version) && negb (Byte.eqb v socks4Version)).
      { injection H as <- _ _. repeat split. }
      destruct (negb (Byte.eqb c ConnectCommand) && negb (Byte.eqb c BindCommand)
                && negb (Byte.eqb c AssociateCommand)).
      { injection H as <- _ _. repeat split. }
      destruct (Byte.eqb v socks4Version && Byte.eqb c AssociateCommand).
      { injection H as <- _ _. repeat split. }
      destruct (Byte.eqb v socks4Version).
      { apply parseSocks4_failure in H. destruct H as (_ & _ & ->). repeat split. }
      destruct (Byte.eqb v socks5Version); [|discriminate H].
      apply parseSocks5_failure_header in H. destruct H as (Hv & Hc & Ha).
      split; [exact Ha|]. split; [exact Hv | exact Hc]. }
    destruct Hh as (Ha & Hv & Hc).
    split; [exact Ha|]. split.
    + intros v' c' r' E. injection E as <- <- _. split; assumption.
    + simpl. intros Hlen. lia.
Qed.

Lemma Parse_failure_header_witness :
  Address (mkHeader x05 x01 x00 zeroAddrSpec x03) = zeroAddrSpec
  /\ (forall v c r',
         [x05; x01; x00; x03; x05; x61] = v :: c :: r' ->
         Version (mkHeader x05 x01 x00 zeroAddrSpec x03) = v
         /\ Command (mkHeader x05 x01 x00 zeroAddrSpec x03) = c)
  /\ ((List.length [x05; x01; x00; x03; x05; x61] < 2)%nat ->
      mkHeader x05 x01 x00 zeroAddrSpec x03 = zeroHeader /\ @nil byte = []
      /\ Errorf "failed to get header, unexpected EOF"
         = Errorf ("failed to get header version and command, " ++ "unexpected EOF")).
Proof.
  exact (Parse_failure_header
           [x05; x01; x00; x03; x05; x61]
           (mkHeader x05 x01 x00 zeroAddrSpec x03)
           (Errorf "failed to get header, unexpected EOF") [] eq_refl).
Defined.

(** ** Headers outside the wire format *)

Lemma Bytes_set_Port (h : Header) (q : Z) :
  breakPort q = breakPort (Port (Address h)) -> Bytes (set_Port q h) = Bytes h.
Proof.
  intros H. unfold Bytes. fields. rewrite H. reflexivity.
Qed.

(** X8. Bytes does not check the port: a port outside 0..65535 (negative
    too) is emitted as the port modulo 65536, so a header whose port is off
    by a multiple of 65536 has the bytes of the header with the port in
    range, and decodes to it. *)
Theorem Bytes_port_modulo (h : Header) (k : Z) (rest : Reader) :
  Bytes (set_Port (Port (Address h) + k * 65536) h) = Bytes h
  /\ (wellFormed h = true ->
      Parse (Bytes (set_Port (Port (Address h) + k * 65536) h) ++ rest)
      = (h, None, rest)).
Proof.
  assert (HB : Bytes (set_Port (Port (Address h) + k * 65536) h) = Bytes h).
  { apply Bytes_set_Port.
    rewrite <- (breakPort_mod (Port (Address h) + k * 65536)), Z.mod_add by lia.
    apply breakPort_mod. }
  split; [exact HB|].
  intros Hwf. rewrite HB. apply Parse_Bytes_wellFormed. assumption.
Qed.

Lemma Bytes_port_modulo_witness :
  Parse (Bytes (set_Port (80 + (-1) * 65536)
                  (mkHeader x04 x01 x00 (mkAddrSpec "" [x0a; x00; x00; x01] 80) x00))
         ++ [x2a])
  = (mkHeader x04 x01 x00 (mkAddrSpec "" [x0a; x00; x00; x01] 80) x00, None, [x2a]).
Proof.
  apply (proj2 (Bytes_port_modulo
                  (mkHeader x04 x01 x00 (mkAddrSpec "" [x0a; x00; x00; x01] 80) x00)
                  (-1) [x2a])).
  reflexivity.
Defined.

(** X9. Bytes never fails, also on a header that is no SOCKS4 or SOCKS5
    request.  With a version other than 4 and 5 it emits the version and
    command bytes and nothing else, which Parse rejects for the version.
    With version 5 and an address type other than 1, 3 and 4 it emits the
    four leading bytes and the port but no address, which Parse (the command
    being one it accepts) rejects with [unrecognizedAddrType], the reader
    left at the port bytes. *)
Theorem Bytes_outside_wire_format (h : Header) (rest : Reader) :
  (Version h <> socks4Version -> Version h <> socks5Version ->
     Bytes h = [Version h; Command h]
     /\ Parse (Bytes h ++ rest) =
          (hdVerCmd (Version h) (Command h),
           Some (Errorf ("unrecognized SOCKS version[" ++ fmt_d (Version h) ++ "]")),
           rest))
  /\ (Version h = socks5Version ->
      addrType h <> ipv4Address -> addrType h <> fqdnAddress ->
      addrType h <> ipv6Address ->
      Bytes h = [socks5Version; Command h; Reserved h; addrType h; hiPort h; loPort h]
      /\ (supportedCommand (Command h) ->
          Parse (Bytes h ++ rest) =
            (hdSocks5 (Command h) (Reserved h) (addrType h),
             Some unrecognizedAddrType, hiPort h :: loPort h :: rest))).
Proof.
  split.
  - intros H4 H5. apply byte_eqb_neq in H4, H5.
    assert (HB : Bytes h = [Version h; Command h]).
    { unfold Bytes. rewrite H4, H5.
      destruct (breakPort (Port (Address h))). reflexivity. }
    split; [exact HB|]. rewrite HB.
    change ([Version h; Command h] ++ rest) with (Version h :: Command h :: rest).
    rewrite Parse_two, H4, H5. reflexivity.
  - intros Hv H1 H3 H4. apply byte_eqb_neq in H1, H3, H4.
    assert (HB : Bytes h =
              [socks5Version; Command h; Reserved h; addrType h; hiPort h; loPort h]).
    { rewrite (Bytes_socks5 h Hv), H1, H3, H4. reflexivity. }
    split; [exact HB|]. intros Hc. rewrite HB.
    change ([socks5Version; Command h; Reserved h; addrType h; hiPort h; loPort h] ++ rest)
      with (socks5Version :: Command h :: Reserved h :: addrType h
              :: hiPort h :: loPort h :: rest).
    rewrite (Parse_socks5 _ _ Hc), parseSocks5_two. cbv zeta.
    rewrite H1, H3, H4. reflexivity.
Qed.

Lemma Bytes_outside_wire_format_witness :
  (Bytes (mkHeader x06 x01 x00 (mkAddrSpec "" [x0a; x00; x00; x01] 80) x01) = [x06; x01]
   /\ Parse (Bytes (mkHeader x06 x01 x00 (mkAddrSpec "" [x0a; x00; x00; x01] 80) x01)
             ++ [x2a])
      = (hdVerCmd x06 x01, Some (Errorf "unrecognized SOCKS version[6]"), [x2a]))
  /\ Parse (Bytes (mkHeader x05 x01 x00 (mkAddrSpec "" [x0a; x00; x00; x01] 80) x02)
            ++ [x2a])
     = (hdSocks5 x01 x00 x02, Some unrecognizedAddrType, [x00; x50; x2a]).
Proof.
  split.
  - apply (proj1 (Bytes_outside_wire_format
                    (mkHeader x06 x01 x00 (mkAddrSpec "" [x0a; x00; x00; x01] 80) x01)
                    [x2a])); discriminate.
  - apply (proj2 (Bytes_outside_wire_format
                    (mkHeader x05 x01 x00 (mkAddrSpec "" [x0a; x00; x00; x01] 80) x02)
                    [x2a])); try discriminate; try reflexivity.
    left; reflexivity.
Defined.

(** X10. When the IP of a version-5 header cannot be brought to the width of
    its address type ([To4] or [To16] gives nil), Bytes emits the header
    with no address bytes, six bytes in all, and Parse does not take these
    six bytes for a header: it reports a short read. *)
Theorem Bytes_missing_address (h : Header) :
  Version h = socks5Version -> supportedCommand (Command h) ->
  (addrType h = ipv4Address /\ To4 (IP (Address h)) = []
   \/ addrType h = ipv6Address /\ To16 (IP (Address h)) = []) ->
  Bytes h = [socks5Version; Command h; Reserved h; addrType h; hiPort h; loPort h]
  /\ Parse (Bytes h) =
       (hdSocks5 (Command h) (Reserved h) (addrType h),
        Some (Errorf "failed to get header, unexpected EOF"), []).
Proof.
  intros Hv Hc Ht.
  assert (HB : Bytes h =
            [socks5Version; Command h; Reserved h; addrType h; hiPort h; loPort h]).
  { rewrite (Bytes_socks5 h Hv).
    destruct Ht as [[-> ->] | [-> ->]]; reflexivity. }
  split; [exact HB|]. rewrite HB.
  rewrite (Parse_socks5 _ _ Hc), parseSocks5_two. cbv zeta.
  destruct Ht as [[-> _] | [-> _]]; reflexivity.
Qed.

Lemma Bytes_missing_address_witness :
  Bytes (mkHeader x05 x01 x00 (mkAddrSpec "example.com" [] 80) x01)
    = [x05; x01; x00; x01; x00; x50]
  /\ Parse (Bytes (mkHeader x05 x01 x00 (mkAddrSpec "example.com" [] 80) x01))
    = (hdSocks5 x01 x00 x01, Some (Errorf "failed to get header, unexpected EOF"), []).
Proof.
  apply (Bytes_missing_address (mkHeader x05 x01 x00 (mkAddrSpec "example.com" [] 80) x01)).
  - reflexivity.
  - left; reflexivity.
  - left; split; reflexivity.
Defined.

(** ** Fields Bytes does not emit, and the width of the IP *)

Lemma wellFormed_socks4 (c : byte) (ip : net_IP) (p : Z) :
  c = ConnectCommand \/ c = BindCommand -> List.length ip = 4%nat ->
  0 <= p <= 65535 ->
  wellFormed (mkHeader socks4Version c x00 (mkAddrSpec "" ip p) x00) = true.
Proof.
  intros Hc Hlen Hp. unfold wellFormed. fields.
  rewrite (proj2 (portInRange_iff p) Hp), Hlen.
  destruct Hc as [-> | ->]; reflexivity.
Qed.

Lemma wellFormed_domain (c rsv : byte) (f : string) (p : Z) :
  supportedCommand c -> (String.length f <= 255)%nat -> 0 <= p <= 65535 ->
  wellFormed (mkHeader socks5Version c rsv (mkAddrSpec f [] p) fqdnAddress) = true.
Proof.
  intros Hc Hlen Hp. unfold wellFormed. fields.
  apply Nat.leb_le in Hlen.
  rewrite (proj2 (portInRange_iff p) Hp), Hlen.
  destruct Hc as [-> | [-> | ->]]; reflexivity.
Qed.

Lemma wellFormed_ip (c rsv t : byte) (ip : net_IP) (p : Z) :
  supportedCommand c -> 0 <= p <= 65535 ->
  (t = ipv4Address /\ List.length ip = 4%nat
   \/ t = ipv6Address /\ List.length ip = 16%nat) ->
  wellFormed (mkHeader socks5Version c rsv (mkAddrSpec "" ip p) t) = true.
Proof.
  intros Hc Hp Ht. unfold wellFormed. fields.
  rewrite (proj2 (portInRange_iff p) Hp).
  destruct Ht as [[-> Hlen] | [-> Hlen]]; rewrite Hlen;
    destruct Hc as [-> | [-> | ->]]; reflexivity.
Qed.

(** X11. Bytes leaves out the fields its version or address type has no place
    for, so decoding its output gives the header without them: for version 4
    the reserved byte, the address type and the domain; for a version-5
    domain the IP; for a version-5 IP address the domain. *)
Theorem Bytes_drops_unused_fields (c rsv t : byte) (f : string) (ip : net_IP)
        (p : Z) (rest : Reader) :
  0 <= p <= 65535 ->
  (c = ConnectCommand \/ c = BindCommand -> List.length ip = 4%nat ->
     Parse (Bytes (mkHeader socks4Version c rsv (mkAddrSpec f ip p) t) ++ rest)
     = (mkHeader socks4Version c x00 (mkAddrSpec "" ip p) x00, None, rest))
  /\ (supportedCommand c -> (String.length f <= 255)%nat ->
     Parse (Bytes (mkHeader socks5Version c rsv (mkAddrSpec f ip p) fqdnAddress) ++ rest)
     = (mkHeader socks5Version c rsv (mkAddrSpec f [] p) fqdnAddress, None, rest))
  /\ (supportedCommand c ->
      (t = ipv4Address /\ List.length ip = 4%nat
       \/ t = ipv6Address /\ List.length ip = 16%nat) ->
     Parse (Bytes (mkHeader socks5Version c rsv (mkAddrSpec f ip p) t) ++ rest)
     = (mkHeader socks5Version c rsv (mkAddrSpec "" ip p) t, None, rest)).
Proof.
  intros Hp. split; [|split].
  - intros Hc Hlen.
    rewrite <- (Parse_Bytes_wellFormed _ rest (wellFormed_socks4 c ip p Hc Hlen Hp)).
    rewrite !Bytes_socks4 by reflexivity. reflexivity.
  - intros Hc Hlen.
    rewrite <- (Parse_Bytes_wellFormed _ rest (wellFormed_domain c rsv f p Hc Hlen Hp)).
    rewrite !Bytes_socks5 by reflexivity. reflexivity.
  - intros Hc Ht.
    rewrite <- (Parse_Bytes_wellFormed _ rest (wellFormed_ip c rsv t ip p Hc Hp Ht)).
    rewrite !Bytes_socks5 by reflexivity.
    destruct Ht as [[-> _] | [-> _]]; reflexivity.
Qed.

Lemma Bytes_drops_unused_fields_witness :
  Parse (Bytes (mkHeader x04 x01 x07 (mkAddrSpec "example.com" [x0a; x00; x00; x01] 80) x03)
         ++ [x2a])
  = (mkHeader x04 x01 x00 (mkAddrSpec "" [x0a; x00; x00; x01] 80) x00, None, [x2a])
  /\ Parse (Bytes (mkHeader x05 x01 x07 (mkAddrSpec "example.com" [x0a; x00; x00; x01] 80) x03)
            ++ [x2a])
  = (mkHeader x05 x01 x07 (mkAddrSpec "example.com" [] 80) x03, None, [x2a])
  /\ Parse (Bytes (mkHeader x05 x01 x07 (mkAddrSpec "example.com" [x0a; x00; x00; x01] 80) x01)
            ++ [x2a])
  = (mkHeader x05 x01 x07 (mkAddrSpec "" [x0a; x00; x00; x01] 80) x01, None, [x2a]).
Proof.
  assert (Hp : 0 <= 80 <= 65535) by lia.
  split; [|split].
  - apply (proj1 (Bytes_drops_unused_fields
                    x01 x07 x03 "example.com" [x0a; x00; x00; x01] 80 [x2a] Hp));
      [left; reflexivity | reflexivity].
  - apply (proj1 (proj2 (Bytes_drops_unused_fields
                    x01 x07 x03 "example.com" [x0a; x00; x00; x01] 80 [x2a] Hp)));
      [left; reflexivity | simpl; lia].
  - apply (proj2 (proj2 (Bytes_drops_unused_fields
                    x01 x07 x01 "example.com" [x0a; x00; x00; x01] 80 [x2a] Hp)));
      [left; reflexivity | left; split; reflexivity].
Defined.

(** X12. Bytes brings the IP to the width of the address type before it emits
    it, and decoding gives the IP in that width: an IPv4 address held in its
    16-byte form under the IPv4 type comes back as its 4 bytes, and an
    address held as 4 bytes under the IPv6 type comes back as 16 bytes, the
    IPv4-in-IPv6 prefix before it. *)
Theorem Bytes_normalises_IP (c rsv a0 a1 a2 a3 : byte) (p : Z) (rest : Reader) :
  supportedCommand c -> 0 <= p <= 65535 ->
  Parse (Bytes (mkHeader socks5Version c rsv
                  (mkAddrSpec "" (v4InV6Prefix ++ [a0; a1; a2; a3]) p) ipv4Address)
         ++ rest)
  = (mkHeader socks5Version c rsv (mkAddrSpec "" [a0; a1; a2; a3] p) ipv4Address,
     None, rest)
  /\ Parse (Bytes (mkHeader socks5Version c rsv
                     (mkAddrSpec "" [a0; a1; a2; a3] p) ipv6Address)
            ++ rest)
  = (mkHeader socks5Version c rsv
       (mkAddrSpec "" (v4InV6Prefix ++ [a0; a1; a2; a3]) p) ipv6Address,
     None, rest).
Proof.
  intros Hc Hp. split.
  - rewrite <- (Parse_Bytes_wellFormed _ rest
                  (wellFormed_ip c rsv ipv4Address [a0; a1; a2; a3] p Hc Hp
                     (or_introl (conj eq_refl eq_refl)))).
    rewrite !Bytes_socks5 by reflexivity. reflexivity.
  - rewrite <- (Parse_Bytes_wellFormed _ rest
                  (wellFormed_ip c rsv ipv6Address (v4InV6Prefix ++ [a0; a1; a2; a3]) p
                     Hc Hp (or_intror (conj eq_refl eq_refl)))).
    rewrite !Bytes_socks5 by reflexivity. reflexivity.
Qed.

Lemma Bytes_normalises_IP_witness :
  Parse (Bytes (mkHeader socks5Version x01 x00
                  (mkAddrSpec "" (v4InV6Prefix ++ [x0a; x00; x00; x01]) 80) ipv4Address)
         ++ [x2a])
  = (mkHeader socks5Version x01 x00 (mkAddrSpec "" [x0a; x00; x00; x01] 80) ipv4Address,
     None, [x2a])
  /\ Parse (Bytes (mkHeader socks5Version x01 x00
                     (mkAddrSpec "" [x0a; x00; x00; x01] 80) ipv6Address)
            ++ [x2a])
  = (mkHeader socks5Version x01 x00
       (mkAddrSpec "" (v4InV6Prefix ++ [x0a; x00; x00; x01]) 80) ipv6Address,
     None, [x2a]).
Proof.
  apply (Bytes_normalises_IP x01 x00 x0a x00 x00 x01 80 [x2a]);
    [left; reflexivity | lia].
Defined.

(** ** The two renderings of an address *)

Lemma IP_String_length4 (ip : net_IP) :
  List.length ip = 4%nat ->
  hasChar ":"%char (IP_String ip) = false.
Proof.
  intros Hlen.
  destruct ip as [|x [|y [|z [|w [|v ip]]]]]; try discriminate Hlen.
  rewrite IP_String_4, !hasChar_app, !fmt_d_no_colon. reflexivity.
Qed.

Lemma hasChar_concat_colon (x y : string) (l : list string) :
  hasChar ":"%char (String.concat ":" (x :: y :: l)) = true.
Proof.
  cbn [String.concat]. rewrite hasChar_app.
  apply orb_true_iff. right. reflexivity.
Qed.

(** The text of a 16-byte address always has a colon. *)
Lemma string6_has_colon (ip : net_IP) :
  List.length ip = 16%nat -> hasChar ":"%char (string6 ip) = true.
Proof.
  intros Hlen. unfold string6.
  destruct (longestZeroRun (groups ip) 0 None) as [[s e]|].
  - rewrite hasChar_app. apply orb_true_iff. right. reflexivity.
  - do 16 (destruct ip as [|? ip]; [discriminate Hlen|]).
    cbn [groups map]. apply hasChar_concat_colon.
Qed.

Lemma hex2_no_colon (b : byte) : hasChar ":"%char (hex2 b) = false.
Proof. destruct b; reflexivity. Qed.

Lemma hexString_no_colon (p : list byte) : hasChar ":"%char (hexString p) = false.
Proof.
  unfold hexString. induction p as [|b p IH]; [reflexivity|].
  cbn [map String.concat].
  destruct (map hex2 p) as [|s l] eqn:E.
  - apply hex2_no_colon.
  - rewrite !hasChar_app, hex2_no_colon. simpl. exact IH.
Qed.

(** X13. For the address of a successful Parse, [String] renders a domain as
    [domain (<nil>):port], the IP it never decoded shown as [<nil>], and an
    address without domain as the text of its IP, a colon and the port; this
    is the dial string of [Address] when the IP has 4 bytes.  For the empty
    domain (neither domain nor IP) [String] is [<nil>:port] and [Address] is
    [:port], with no host. *)
Theorem String_of_decoded_address (r : Reader) (h : Header) (rest : Reader) :
  Parse r = (h, None, rest) ->
  let a := Address h in
  (FQDN a <> "" ->
     AddrSpec_String a = (FQDN a ++ " (<nil>):" ++ Itoa (Port a))%string)
  /\ (FQDN a = "" ->
     AddrSpec_String a = (IP_String (IP a) ++ ":" ++ Itoa (Port a))%string)
  /\ (List.length (IP a) = 4%nat -> AddrSpec_String a = AddrSpec_Address a)
  /\ (FQDN a = "" -> IP a = [] ->
     AddrSpec_String a = ("<nil>:" ++ Itoa (Port a))%string
     /\ AddrSpec_Address a = (":" ++ Itoa (Port a))%string).
Proof.
  intros H a.
  assert (Hinv : (FQDN a <> "" -> IP a = [])
                 /\ (List.length (IP a) = 4%nat -> FQDN a = "")).
  { apply Parse_ok_wellFormed, wellFormed_cases in H.
    destruct H as (c & rsv & fqdn & ip & p & Hp & H). subst a.
    destruct H as [(-> & _ & Hlen) | [(-> & _ & Hlen) | [(-> & _ & Hlen) | (-> & _ & Hlen)]]];
      fields; split; try reflexivity; try discriminate;
      intros Hf; exfalso; apply Hf; reflexivity. }
  destruct Hinv as [Hdom Hip4]. clearbody a. clear H.
  destruct a as [f ip p]. cbn [FQDN IP Port] in *.
  unfold AddrSpec_String, AddrSpec_Address. cbn [FQDN IP Port].
  split; [|split; [|split]].
  - intros Hf. rewrite (Hdom Hf).
    apply String.eqb_neq in Hf. rewrite Hf. reflexivity.
  - intros ->. reflexivity.
  - intros Hlen. rewrite (Hip4 Hlen), Hlen.
    unfold JoinHostPort. rewrite (IP_String_length4 ip Hlen). reflexivity.
  - intros -> ->. split; reflexivity.
Qed.

Lemma String_of_decoded_address_witness :
  (FQDN (mkAddrSpec "ab" [] 443) <> "" ->
     AddrSpec_String (mkAddrSpec "ab" [] 443) = "ab (<nil>):443")
  /\ AddrSpec_String (mkAddrSpec "" [x0a; x00; x00; x01] 80) = "10.0.0.1:80"
  /\ AddrSpec_String (mkAddrSpec "" [x0a; x00; x00; x01] 80)
     = AddrSpec_Address (mkAddrSpec "" [x0a; x00; x00; x01] 80)
  /\ (AddrSpec_String (mkAddrSpec "" [] 80) = "<nil>:80"
      /\ AddrSpec_Address (mkAddrSpec "" [] 80) = ":80").
Proof.
  split; [|split; [|split]].
  - exact (proj1 (String_of_decoded_address
                    [x05; x02; x00; x03; x02; x61; x62; x01; xbb]
                    (mkHeader x05 x02 x00 (mkAddrSpec "ab" [] 443) x03) [] eq_refl)).
  - exact (proj1 (proj2 (String_of_decoded_address
                    [x04; x01; x00; x50; x0a; x00; x00; x01]
                    (mkHeader x04 x01 x00 (mkAddrSpec "" [x0a; x00; x00; x01] 80) x00)
                    [] eq_refl)) eq_refl).
  - exact (proj1 (proj2 (proj2 (String_of_decoded_address
                    [x04; x01; x00; x50; x0a; x00; x00; x01]
                    (mkHeader x04 x01 x00 (mkAddrSpec "" [x0a; x00; x00; x01] 80) x00)
                    [] eq_refl))) eq_refl).
  - exact (proj2 (proj2 (proj2 (String_of_decoded_address
                    [x05; x01; x00; x03; x00; x00; x50]
                    (mkHeader x05 x01 x00 (mkAddrSpec "" [] 80) x03)
                    [] eq_refl))) eq_refl eq_refl).
Defined.

(** X14. The dial string by the form of the IP.  An IPv4 address held in its
    16-byte form is rendered as in its 4-byte form; any other 16-byte
    address is rendered as its IPv6 text in brackets, then a colon and the
    port; an IP of another length (not 0, 4 or 16) is rendered, without
    failing, as a question mark and its bytes in hexadecimal. *)
Theorem Address_by_IP_form (f : string) (p : Z) :
  (forall a b c d,
      AddrSpec_Address (mkAddrSpec f (v4InV6Prefix ++ [a; b; c; d]) p)
      = AddrSpec_Address (mkAddrSpec f [a; b; c; d] p))
  /\ (forall ip, List.length ip = 16%nat -> ~ v4Mapped ip ->
      AddrSpec_Address (mkAddrSpec f ip p)
      = ("[" ++ string6 ip ++ "]:" ++ Itoa p)%string)
  /\ (forall ip, ip <> [] -> List.length ip <> 4%nat -> List.length ip <> 16%nat ->
      AddrSpec_Address (mkAddrSpec f ip p)
      = ("?" ++ hexString ip ++ ":" ++ Itoa p)%string).
Proof.
  split; [|split].
  - intros a b c d. reflexivity.
  - intros ip Hlen Hmap.
    unfold AddrSpec_Address. cbn [IP Port FQDN]. rewrite Hlen.
    change (negb (Nat.eqb 0 16)) with true. cbv iota.
    unfold IP_String. rewrite Hlen.
    change (Nat.eqb 16 0) with false.
    change (negb (Nat.eqb 16 IPv4len) && negb (Nat.eqb 16 IPv6len)) with false.
    cbv iota.
    assert (H4 : To4 ip = []).
    { apply To4_cases. intros [H | H]; [rewrite Hlen in H; discriminate H | contradiction]. }
    rewrite H4. change (Nat.eqb (List.length (@nil byte)) IPv4len) with false. cbv iota.
    unfold JoinHostPort. rewrite (string6_has_colon ip Hlen). reflexivity.
  - intros ip Hne H4 H16.
    unfold AddrSpec_Address. cbn [IP Port FQDN].
    assert (H0 : Nat.eqb 0 (List.length ip) = false).
    { destruct ip; [contradiction | reflexivity]. }
    rewrite H0. cbn [negb]. unfold IP_String.
    rewrite Nat.eqb_sym, H0.
    apply Nat.eqb_neq in H4, H16. unfold IPv4len, IPv6len. rewrite H4, H16.
    cbn [negb andb]. unfold JoinHostPort.
    change (hasChar ":"%char ("?" ++ hexString ip))
      with (hasChar ":"%char (hexString ip)).
    rewrite hexString_no_colon. reflexivity.
Qed.

Lemma Address_by_IP_form_witness :
  AddrSpec_Address
    (mkAddrSpec "" [x20; x01; x0d; xb8; x00; x00; x00; x00;
                    x00; x00; x00; x00; x00; x00; x00; x01] 443)
  = "[2001:db8::1]:443"
  /\ AddrSpec_Address (mkAddrSpec "" [x0a; x00; x01] 80) = "?0a0001:80".
Proof.
  split.
  - apply (proj1 (proj2 (Address_by_IP_form "" 443))
             [x20; x01; x0d; xb8; x00; x00; x00; x00;
              x00; x00; x00; x00; x00; x00; x00; x01]).
    + reflexivity.
    + intros (a & b & c & d & H). discriminate H.
  - apply (proj2 (proj2 (Address_by_IP_form "" 80)) [x0a; x00; x01]);
      discriminate.
Defined.

(** ** A domain longer than the length byte can tell *)

Lemma list_split_at (k : nat) (l : list byte) :
  (k + 2 <= List.length l)%nat ->
  l = firstn k l ++ idx l k :: idx l (k + 1) :: skipn (k + 2) l.
Proof.
  revert l. induction k as [|k IH]; intros l Hlen.
  - destruct l as [|x [|y l]]; simpl in Hlen; try lia. reflexivity.
  - destruct l as [|a l]; simpl in Hlen; [lia|].
    cbn [firstn skipn Nat.add app]. unfold idx in *. cbn [nth].
    f_equal. apply IH. lia.
Qed.

(** X15. A version-5 domain header whose domain has more than 255 bytes is
    emitted without error, but its bytes do not decode to it: Parse takes
    the length byte, the true length modulo 256, at its word, returns the
    first bytes of the domain as the domain, the two bytes after them as the
    port, and leaves the rest of the domain and the real port in the
    stream. *)
Theorem Bytes_long_domain_misframes (c rsv : byte) (dom : list byte) (ip : net_IP)
        (p : Z) (rest : Reader) :
  supportedCommand c ->
  (255 < List.length dom)%nat ->
  let k := (List.length dom mod 256)%nat in
  Parse (Bytes (mkHeader socks5Version c rsv
                  (mkAddrSpec (string_of_list_byte dom) ip p) fqdnAddress) ++ rest)
  = (mkHeader socks5Version c rsv
       (mkAddrSpec (string_of_list_byte (firstn k dom)) []
          (buildPort (idx dom k) (idx dom (k + 1)))) fqdnAddress,
     None,
     skipn (k + 2) dom ++ [fst (breakPort p); snd (breakPort p)] ++ rest).
Proof.
  intros Hc Hlen k.
  assert (Hk : (k < 256)%nat) by (apply Nat.mod_upper_bound; lia).
  assert (Hk2 : (k + 2 <= List.length dom)%nat).
  { pose proof (Nat.div_mod_eq (List.length dom) 256) as E. fold k in E.
    assert ((List.length dom / 256 <> 0)%nat).
    { intros H0. rewrite H0 in E. lia. }
    lia. }
  rewrite Bytes_socks5 by reflexivity. fields.
  change (Byte.eqb fqdnAddress fqdnAddress) with true. cbv iota.
  rewrite length_string_of_list_byte, list_byte_of_string_of_list_byte.
  rewrite <- !app_assoc.
  change ([socks5Version; c; rsv; fqdnAddress] ++
          (uint8 (Z.of_nat (List.length dom)) :: dom) ++
          [fst (breakPort p); snd (breakPort p)] ++ rest)
    with (x05 :: c :: rsv :: x03 :: uint8 (Z.of_nat (List.length dom)) ::
          dom ++ [fst (breakPort p); snd (breakPort p)] ++ rest).
  rewrite (list_split_at k dom Hk2) at 2.
  rewrite <- app_assoc.
  change ((idx dom k :: idx dom (k + 1) :: skipn (k + 2) dom) ++
          [fst (breakPort p); snd (breakPort p)] ++ rest)
    with (idx dom k :: idx dom (k + 1) ::
          skipn (k + 2) dom ++ [fst (breakPort p); snd (breakPort p)] ++ rest).
  apply (Parse_domain_ok c rsv _ (firstn k dom) _ _ _ Hc).
  rewrite int_uint8, length_firstn.
  replace (Z.of_nat (List.length dom) mod 256) with (Z.of_nat k)
    by (subst k; rewrite Nat2Z.inj_mod; reflexivity).
  rewrite Nat2Z.id. lia.
Qed.

Lemma Bytes_long_domain_misframes_witness :
  Parse (Bytes (mkHeader socks5Version x01 x00
                  (mkAddrSpec (string_of_list_byte (repeat x61 258)) [] 80) fqdnAddress)
         ++ [x2a])
  = (mkHeader socks5Version x01 x00 (mkAddrSpec "aa" [] 24929) fqdnAddress,
     None,
     repeat x61 254 ++ [x00; x50] ++ [x2a]).
Proof.
  apply (Bytes_long_domain_misframes x01 x00 (repeat x61 258) [] 80 [x2a]).
  - left; reflexivity.
  - rewrite repeat_length. lia.
Defined.
